(** * oyl-sdk: the Blockstream/Esplora client and the Provider router

    A shallow embedding of [src/rpclient/blockstream-esplora.ts] (the
    [BlockstreamEsploraClient] class) and of the [Provider] class that routes
    batches and broadcasts between the Sandshrew client and the Blockstream
    client.

    Asynchronous methods are embedded as computations of a small monad [M]
    that threads the state of the outside world, may end in a thrown
    exception, and records the events a computation emits (requests sent,
    methods of a backend client invoked, console output).  An [await] is the
    monadic bind; [try]/[catch] is [try_catch]. *)

From Stdlib Require Import ZArith List String Ascii Bool Lia.
From Stdlib Require Import PrimFloat SpecFloat FloatOps.
From Stdlib Require Import DecimalString DecimalN.
Import ListNotations.

Local Open Scope list_scope.
Local Open Scope string_scope.

Set Warnings "-register-all".

(** ** JavaScript values *)

(** The values that travel through [any]-typed positions: call parameters
    and JSON results.  Numbers are IEEE binary64, as in the language. *)
Inductive Value : Type :=
| VUndefined
| VNull
| VBool (b : bool)
| VNum (x : float)
| VStr (s : string)
| VArr (items : list Value)
| VObj (fields : list (string * Value)).

(** Exceptions.  [JsError msg] is [new Error(msg)] built by the code of this
    module; [TypeError] is raised by the language runtime; [External] is a
    failure raised inside a collaborator (the HTTP transport, the Sandshrew
    client, the PSBT library), whose error object is never one of ours. *)
Inductive Exn : Type :=
| JsError (msg : string)
| TypeError (msg : string)
| External (detail : string).

Inductive Outcome (A : Type) : Type :=
| Ok (a : A)
| Throw (e : Exn).
Arguments Ok {A} a.
Arguments Throw {A} e.

(** What a collaborator answers: a value, or a failure with its detail. *)
Inductive Reply (A : Type) : Type :=
| Replied (a : A)
| Failed (detail : string).
Arguments Replied {A} a.
Arguments Failed {A} detail.

Definition outcome_of_reply {A} (r : Reply A) : Outcome A :=
  match r with
  | Replied a => Ok a
  | Failed d => Throw (External d)
  end.

(** ** Network variants and handles *)

Inductive NetworkType : Type := Signet | Mainnet | Testnet | Regtest.

Definition NetworkType_eqb (a b : NetworkType) : bool :=
  match a, b with
  | Signet, Signet | Mainnet, Mainnet | Testnet, Testnet | Regtest, Regtest => true
  | _, _ => false
  end.

Definition NetworkType_name (n : NetworkType) : string :=
  match n with
  | Signet => "signet"
  | Mainnet => "mainnet"
  | Testnet => "testnet"
  | Regtest => "regtest"
  end.

(** [bitcoin.networks.Network] of bitcoinjs-lib. *)
Inductive Network : Type :=
| NetBitcoin
| NetTestnet
| NetRegtest
| NetCustom (bech32 : string).

(** A logical call [[method, params]] and a result envelope [{ result }]. *)
Definition Call : Type := string * list Value.

Record Envelope : Type := { result : Value }.

(** ** HTTP *)

Inductive HttpMethod : Type := GET | POST.

Record Request : Type := {
  req_url : string;
  req_method : HttpMethod;
  req_headers : list (string * string);
  req_body : option string
}.

Record Response : Type := {
  resp_ok : bool;
  resp_statusText : string;
  resp_text : Reply string;
  resp_json : Reply Value
}.

(** ** Handles of the other RPC clients (classes that live outside this
    module: only their construction from the master URL is visible here). *)
Record RpcHandle : Type := { rpc_url : string }.

Record BlockstreamEsploraClient : Type := { baseUrl : string }.

(** ** Events *)

Inductive Level : Type := LogInfo | LogWarn | LogError.

Inductive BlockstreamOp : Type :=
| BGetAddressUtxos (address : Value)
| BGetTxInfo (txid : Value)
| BPushTx (txHex : string)
| BGetBlockHeight
| BGetFeeEstimates
| BMultiCall (calls : list Call).

Inductive SandshrewOp : Type :=
| SMultiCall (calls : list Call)
| STestMemPoolAccept (rawTxs : list string)
| SSendRawTransaction (rawTx : string)
| SWaitForTransaction (txId : string)
| SGetMemPoolEntry (txId : string).

(** An event is emitted when a request leaves through [fetch], when a
    method of a backend client is invoked, and when the console is written. *)
Inductive Event : Type :=
| EFetch (req : Request)
| EBlockstream (op : BlockstreamOp)
| ESandshrew (op : SandshrewOp)
| EConsole (lvl : Level) (msg : string) (payload : option Exn).

(** ** The monad *)

Section Monad.
Context {W : Type}.

Definition M (A : Type) : Type := W -> Outcome A * W * list Event.

Definition ret {A} (a : A) : M A := fun w => (Ok a, w, []).

Definition throw {A} (e : Exn) : M A := fun w => (Throw e, w, []).

Definition bind {A B} (m : M A) (k : A -> M B) : M B :=
  fun w =>
    match m w with
    | (Ok a, w1, l1) =>
        match k a w1 with
        | (r, w2, l2) => (r, w2, (l1 ++ l2)%list)
        end
    | (Throw e, w1, l1) => (Throw e, w1, l1)
    end.

Definition try_catch {A} (m : M A) (handler : Exn -> M A) : M A :=
  fun w =>
    match m w with
    | (Ok a, w1, l1) => (Ok a, w1, l1)
    | (Throw e, w1, l1) =>
        match handler e w1 with
        | (r, w2, l2) => (r, w2, (l1 ++ l2)%list)
        end
    end.

Definition emit (ev : Event) : M unit := fun w => (Ok tt, w, [ev]).

Definition lift_outcome {A} (o : Outcome A) : M A := fun w => (o, w, []).

(** A call into a collaborator that reads and changes the world. *)
Definition ask {A} (oracle : W -> Reply A * W) : M A :=
  fun w => match oracle w with (r, w1) => (outcome_of_reply r, w1, []) end.

Definition console (lvl : Level) (msg : string) (payload : option Exn) : M unit :=
  emit (EConsole lvl msg payload).
End Monad.

Arguments M W A : clear implicits.

Declare Scope js_scope.
Delimit Scope js_scope with js.
Notation "x <- m ;; k" := (bind m (fun x => k))
  (at level 61, m at next level, right associativity) : js_scope.
Notation "m ;;; k" := (bind m (fun _ => k))
  (at level 61, right associativity) : js_scope.
Local Open Scope js_scope.

Definition outcome_of {W A} (r : Outcome A * W * list Event) : Outcome A := fst (fst r).
Definition world_of {W A} (r : Outcome A * W * list Event) : W := snd (fst r).
Definition events_of {W A} (r : Outcome A * W * list Event) : list Event := snd r.

(** ** Language built-ins used by the module *)

(** [s.split(sep)] for a one-character separator. *)
Fixpoint split_on (sep : ascii) (s : string) : list string :=
  match s with
  | EmptyString => [EmptyString]
  | String c rest =>
      if Ascii.eqb c sep then EmptyString :: split_on sep rest
      else match split_on sep rest with
           | [] => [String c EmptyString]
           | h :: t => String c h :: t
           end
  end.

(** [[...].filter(Boolean)] on strings keeps the non-empty ones. *)
Definition string_truthy (s : string) : bool :=
  match s with EmptyString => false | String _ _ => true end.

(** Truthiness of an optional string argument ([undefined] and [''] are
    falsy). *)
Definition opt_truthy (o : option string) : bool :=
  match o with
  | None => false
  | Some s => string_truthy s
  end.

(** Any object reference is truthy. *)
Definition object_truthy {A} (_ : A) : bool := true.

Section Builtins.
(** [Number::toString], the shortest round-trip rendering of a number: a
    built-in of the language, taken as given. *)
Variable Number_toString : float -> string.

(** String coercion, as performed by a template literal. *)
Fixpoint js_ToString (v : Value) : string :=
  match v with
  | VUndefined => "undefined"
  | VNull => "null"
  | VBool true => "true"
  | VBool false => "false"
  | VNum x => Number_toString x
  | VStr s => s
  | VArr items =>
      String.concat ","
        (map (fun x => match x with
                       | VUndefined | VNull => ""
                       | _ => js_ToString x
                       end) items)
  | VObj _ => "[object Object]"
  end.

(** [v.split(':')] on an [any]-typed value: only strings have the method. *)
Definition js_split (v : Value) (sep : ascii) : Outcome (list string) :=
  match v with
  | VStr s => Ok (split_on sep s)
  | VUndefined => Throw (TypeError "Cannot read properties of undefined (reading 'split')")
  | VNull => Throw (TypeError "Cannot read properties of null (reading 'split')")
  | _ => Throw (TypeError
                 "txidVout.split is not a function or its return value is not iterable")
  end.

(** *** [Number.prototype.toFixed], for a digit count within its range
    (0 to 100) *)

Definition digits_of (n : Z) : string :=
  if (n =? 0)%Z then "0" else NilEmpty.string_of_uint (N.to_uint (Z.to_N n)).

Fixpoint zeros (k : nat) : string :=
  match k with
  | O => ""
  | S k' => String "0" (zeros k')
  end.

(** The digits of [n] with the decimal point placed [f] digits from the
    right, zero-padded on the left to at least [f + 1] digits. *)
Definition place_point (f : nat) (n : Z) : string :=
  let m := digits_of n in
  let k := String.length m in
  let m' := if Nat.leb k f then zeros (f + 1 - k) ++ m else m in
  let k' := String.length m' in
  match f with
  | O => m'
  | _ => substring 0 (k' - f) m' ++ "." ++ substring (k' - f) f m'
  end.

(** The integer [n] for which [n / 10^f] is closest to [mant * 2^e], the
    larger one on a tie. *)
Definition nearest_scaled (f : nat) (mant : positive) (e : Z) : Z :=
  let scaled := (Z.pos mant * 10 ^ Z.of_nat f)%Z in
  if (0 <=? e)%Z then (scaled * 2 ^ e)%Z
  else ((2 * scaled + 2 ^ (- e)) / (2 * 2 ^ (- e)))%Z.

(** Whether [mant * 2^e >= 10^21]. *)
Definition at_least_1e21 (mant : positive) (e : Z) : bool :=
  if (0 <=? e)%Z then (10 ^ 21 <=? Z.pos mant * 2 ^ e)%Z
  else (10 ^ 21 * 2 ^ (- e) <=? Z.pos mant)%Z.

Definition Number_toFixed (x : float) (f : nat) : string :=
  match Prim2SF x with
  | S754_nan => "NaN"
  | S754_infinity false => "Infinity"
  | S754_infinity true => "-Infinity"
  | S754_zero _ => place_point f 0
  | S754_finite sgn mant e =>
      let s := if sgn then "-" else "" in
      if at_least_1e21 mant e then s ++ Number_toString (abs x)
      else s ++ place_point f (nearest_scaled f mant e)
  end.
End Builtins.

(** ** Collaborators *)

(** The final transaction extracted from a PSBT, with what
    [bitcoin.Transaction] exposes to this module. *)
Record Transaction : Type := {
  tx_getId : string;
  tx_toHex : string;
  tx_virtualSize : float;
  tx_weight : float
}.

(** One entry of the array returned by [testMemPoolAccept]. *)
Record MemPoolAccept : Type := {
  allowed : bool;
  reject_reason : option string
}.

(** What [getMemPoolEntry] returns, as far as it is read here. *)
Record MemPoolEntry : Type := {
  vsize : float;
  entry_weight : float;
  fees_base : float
}.

(** Everything this module calls and does not define: the HTTP transport
    ([node-fetch]), the language's number rendering, the PSBT library
    ([bitcoinjs-lib]), the Sandshrew client and [waitForTransaction].  [W] is
    the state of the outside world, [Psbt] the library's PSBT objects. *)
Record Collaborators (W Psbt : Type) : Type := {
  fetch : Request -> W -> Reply Response * W;
  Number_toString : float -> string;
  Psbt_fromHex : string -> Network -> Reply Psbt;
  Psbt_fromBase64 : string -> Network -> Reply Psbt;
  Psbt_extractTransaction : Psbt -> Reply Transaction;
  Sandshrew_multiCall : RpcHandle -> list Call -> W -> Reply (list Envelope) * W;
  testMemPoolAccept : RpcHandle -> list string -> W -> Reply (list MemPoolAccept) * W;
  sendRawTransaction : RpcHandle -> string -> W -> Reply string * W;
  getMemPoolEntry : RpcHandle -> string -> W -> Reply MemPoolEntry * W;
  waitForTransaction : string -> RpcHandle -> W -> Reply unit * W
}.
Arguments fetch {W Psbt} _ _ _.
Arguments Number_toString {W Psbt} _ _.
Arguments Psbt_fromHex {W Psbt} _ _ _.
Arguments Psbt_fromBase64 {W Psbt} _ _ _.
Arguments Psbt_extractTransaction {W Psbt} _ _.
Arguments Sandshrew_multiCall {W Psbt} _ _ _ _.
Arguments testMemPoolAccept {W Psbt} _ _ _ _.
Arguments sendRawTransaction {W Psbt} _ _ _ _.
Arguments getMemPoolEntry {W Psbt} _ _ _ _.
Arguments waitForTransaction {W Psbt} _ _ _ _.

(** ** class BlockstreamEsploraClient *)

Module Blockstream.

(** The constructor: one base URL per supported network type, an error
    for any other. *)
Definition new (networkType : NetworkType) : Outcome BlockstreamEsploraClient :=
  if NetworkType_eqb networkType Mainnet then
    Ok {| baseUrl := "https://blockstream.info/api" |}
  else if NetworkType_eqb networkType Testnet then
    Ok {| baseUrl := "https://blockstream.info/testnet/api" |}
  else if NetworkType_eqb networkType Signet then
    Ok {| baseUrl := "https://mempool.space/signet/api" |}
  else
    Throw (JsError ("Unsupported network type: " ++ NetworkType_name networkType)).

Section Methods.
Context {W Psbt : Type} (env : Collaborators W Psbt).
Variable this : BlockstreamEsploraClient.

Definition http_get (url : string) : M W Response :=
  let req := {| req_url := url; req_method := GET;
                req_headers := []; req_body := None |} in
  emit (EFetch req) ;;; ask (fetch env req).

Definition http_post_text (url body : string) : M W Response :=
  let req := {| req_url := url; req_method := POST;
                req_headers := [("Content-Type", "text/plain")];
                req_body := Some body |} in
  emit (EFetch req) ;;; ask (fetch env req).

Definition tpl (v : Value) : string := js_ToString (Number_toString env) v.

Definition getAddressUtxos (address : Value) : M W Value :=
  emit (EBlockstream (BGetAddressUtxos address)) ;;;
  response <- http_get (baseUrl this ++ "/address/" ++ tpl address ++ "/utxo") ;;
  if negb (resp_ok response) then
    throw (JsError ("Failed to fetch UTXOs: " ++ resp_statusText response))
  else lift_outcome (outcome_of_reply (resp_json response)).

Definition getTxInfo (txid : Value) : M W Value :=
  emit (EBlockstream (BGetTxInfo txid)) ;;;
  response <- http_get (baseUrl this ++ "/tx/" ++ tpl txid) ;;
  if negb (resp_ok response) then
    throw (JsError ("Failed to fetch transaction: " ++ resp_statusText response))
  else lift_outcome (outcome_of_reply (resp_json response)).

Definition pushTx (txHex : string) : M W string :=
  emit (EBlockstream (BPushTx txHex)) ;;;
  response <- http_post_text (baseUrl this ++ "/tx") txHex ;;
  if negb (resp_ok response) then
    errorText <- lift_outcome (outcome_of_reply (resp_text response)) ;;
    throw (JsError ("Failed to broadcast transaction: " ++ errorText))
  else lift_outcome (outcome_of_reply (resp_text response)).

Definition getBlockHeight : M W Value :=
  emit (EBlockstream BGetBlockHeight) ;;;
  response <- http_get (baseUrl this ++ "/blocks/tip/height") ;;
  if negb (resp_ok response) then
    throw (JsError ("Failed to fetch block height: " ++ resp_statusText response))
  else lift_outcome (outcome_of_reply (resp_json response)).


(** The method names the [switch] of [multiCall] recognizes. *)
Definition known_method (method : string) : bool :=
  (method =? "esplora_address::utxo") || (method =? "btc_getblockcount")
  || (method =? "ord_output") || (method =? "esplora_tx")
  || (method =? "alkanes_protorunesbyoutpoint").

(** The [switch (method)] of [multiCall]: the value bound to [result],
    or the exception that leaves the [switch]. *)
Definition multiCall_switch (method : string) (params : list Value) : M W Value :=
  if method =? "esplora_address::utxo" then
    let address := nth 0 params VUndefined in
    getAddressUtxos address
  else if method =? "btc_getblockcount" then
    getBlockHeight
  else if method =? "ord_output" then
    let txidVout := nth 0 params VUndefined in
    parts <- lift_outcome (js_split txidVout ":") ;;
    let txid := nth 0 parts "" in
    let vout := nth 1 parts "" in
    ret (VObj [("indexed", VBool true);
               ("inscriptions", VArr []);
               ("runes", VObj [])])
  else if method =? "esplora_tx" then
    let txId := nth 0 params VUndefined in
    getTxInfo txId
  else if method =? "alkanes_protorunesbyoutpoint" then
    ret (VArr [])
  else
    console LogWarn ("Unsupported method in multiCall: " ++ method) None ;;;
    ret VNull.

(** One turn of the [for] loop: the [try] block pushes the envelope of
    the call, the [catch] block logs and pushes a [null] envelope. *)
Definition multiCall_step (results : list Envelope) (call : Call)
  : M W (list Envelope) :=
  let '(method, params) := call in
  try_catch
    (result <- multiCall_switch method params ;;
     ret (results ++ [{| result := result |}])%list)
    (fun error =>
       console LogError ("Error in multiCall method " ++ method ++ ":") (Some error) ;;;
       ret (results ++ [{| result := VNull |}])%list).

Fixpoint multiCall_loop (calls : list Call) (results : list Envelope)
  : M W (list Envelope) :=
  match calls with
  | [] => ret results
  | call :: rest =>
      results' <- multiCall_step results call ;;
      multiCall_loop rest results'
  end.

Definition multiCall (calls : list Call) : M W (list Envelope) :=
  emit (EBlockstream (BMultiCall calls)) ;;;
  multiCall_loop calls [].
End Methods.
End Blockstream.

(** ** class Provider *)

Record ProviderConstructorArgs : Type := {
  arg_url : string;
  arg_projectId : string;
  arg_network : Network;
  arg_networkType : NetworkType;
  arg_version : option string;
  arg_apiProvider : Value;
  arg_fallbackToBlockstream : option bool
}.

Record Provider : Type := {
  sandshrew : RpcHandle;
  esplora : RpcHandle;
  ord : RpcHandle;
  api : Value;
  alkanes : RpcHandle;
  blockstreamEsplora : option BlockstreamEsploraClient;
  network : Network;
  networkType : NetworkType;
  url : string;
  useBlockstreamFallback : bool
}.

(** The argument of [pushPsbt] and the receipt it returns. *)
Record PushPsbtArgs : Type := {
  psbtHex : option string;
  psbtBase64 : option string
}.

Record Receipt : Type := {
  txId : string;
  rawTx : string;
  size : float;
  weight : float;
  fee : float;
  satsPerVByte : string
}.

Definition opt_default {A} (o : option A) (d : A) : A :=
  match o with Some a => a | None => d end.

(** The constant expression [10 ** 8]. *)
Definition ten_pow_8 : float := 100000000%float.

Module Provider.

Section Methods.
Context {W Psbt : Type} (env : Collaborators W Psbt).

(** The constructor.  (Its leading [switch (network)] only assigns two
    locals that are never read.)  The constructors of the four RPC
    clients store the master URL. *)
Definition new (args : ProviderConstructorArgs) : M W Provider :=
  let version := opt_default (arg_version args) "v1" in
  let fallbackToBlockstream := opt_default (arg_fallbackToBlockstream args) false in
  let networkType := arg_networkType args in
  let masterUrl :=
    String.concat "/"
      (filter string_truthy [arg_url args; version; arg_projectId args]) in
  let useBlockstreamFallback :=
    fallbackToBlockstream || NetworkType_eqb networkType Signet in
  blockstreamEsplora <-
    (if useBlockstreamFallback
        || existsb (NetworkType_eqb networkType) [Signet; Testnet; Mainnet]
     then
       try_catch
         (client <- lift_outcome (Blockstream.new networkType) ;;
          ret (Some client))
         (fun error =>
            console LogWarn "Failed to initialize Blockstream Esplora client:"
              (Some error) ;;;
            ret None)
     else ret None) ;;
  ret {| sandshrew := {| rpc_url := masterUrl |};
         esplora := {| rpc_url := masterUrl |};
         ord := {| rpc_url := masterUrl |};
         api := arg_apiProvider args;
         alkanes := {| rpc_url := masterUrl |};
         blockstreamEsplora := blockstreamEsplora;
         network := arg_network args;
         networkType := networkType;
         url := masterUrl;
         useBlockstreamFallback := useBlockstreamFallback |}.

Variable this : Provider.

(** A method of the Sandshrew side: the invocation is recorded, the
    collaborator answers. *)
Definition sandshrew_op {A} (op : SandshrewOp) (oracle : W -> Reply A * W) : M W A :=
  emit (ESandshrew op) ;;; ask oracle.

(** [this.sandshrew.multiCall(calls)]. *)
Definition sandshrew_multiCall (calls : list Call) : M W (list Envelope) :=
  sandshrew_op (SMultiCall calls)
    (Sandshrew_multiCall env (sandshrew this) calls).

(** [multiCall]: the first [if] either returns from inside its [try]
    ([Some]) or falls through ([None]). *)
Definition multiCall (calls : list Call) : M W (list Envelope) :=
  returned <-
    match useBlockstreamFallback this, blockstreamEsplora this with
    | true, Some client =>
        try_catch
          (r <- Blockstream.multiCall env client calls ;; ret (Some r))
          (fun error =>
             console LogWarn "Blockstream Esplora multiCall failed, trying Sandshrew:"
               (Some error) ;;;
             ret None)
    | _, _ => ret None
    end ;;
  match returned with
  | Some r => ret r
  | None =>
      try_catch
        (sandshrew_multiCall calls)
        (fun error =>
           console LogWarn "Sandshrew multiCall failed:" (Some error) ;;;
           match blockstreamEsplora this with
           | Some client =>
               if negb (useBlockstreamFallback this) then
                 console LogInfo "Falling back to Blockstream Esplora" None ;;;
                 Blockstream.multiCall env client calls
               else throw error
           | None => throw error
           end)
  end.

(** The two [if (psbtHex)] / [if (psbtBase64)] assignments to [psbt]. *)
Definition decode_psbt (a : PushPsbtArgs) : M W (option Psbt) :=
  psbt <-
    (if opt_truthy (psbtHex a) then
       p <- lift_outcome (outcome_of_reply
              (Psbt_fromHex env (opt_default (psbtHex a) "") (network this))) ;;
       ret (Some p)
     else ret None) ;;
  if opt_truthy (psbtBase64 a) then
    p <- lift_outcome (outcome_of_reply
           (Psbt_fromBase64 env (opt_default (psbtBase64 a) "") (network this))) ;;
    ret (Some p)
  else ret psbt.

Definition extract (psbt : option Psbt) : M W Transaction :=
  try_catch
    (match psbt with
     | Some p => lift_outcome (outcome_of_reply (Psbt_extractTransaction env p))
     | None =>
         throw (TypeError "Cannot read properties of undefined (reading 'extractTransaction')")
     end)
    (fun error =>
       throw (JsError "Transaction could not be extracted do to invalid Psbt.")).

(** The Blockstream branch of [pushPsbt]. *)
Definition push_blockstream (extractedTx : Transaction) : M W Receipt :=
  let txId := tx_getId extractedTx in
  let rawTx := tx_toHex extractedTx in
  match blockstreamEsplora this with
  | Some client =>
      try_catch
        (Blockstream.pushTx env client rawTx ;;;
         ret {| txId := txId;
                rawTx := rawTx;
                size := tx_virtualSize extractedTx;
                weight := tx_weight extractedTx;
                fee := 0%float;
                satsPerVByte := "0" |})
        (fun blockstreamError =>
           console LogError "Blockstream Esplora push failed:" (Some blockstreamError) ;;;
           throw blockstreamError)
  | None => throw (JsError "No available service to broadcast transaction")
  end.

(** The Sandshrew branch of [pushPsbt]. *)
Definition push_sandshrew (extractedTx : Transaction) : M W Receipt :=
  let txId := tx_getId extractedTx in
  let rawTx := tx_toHex extractedTx in
  results <- sandshrew_op (STestMemPoolAccept [rawTx])
               (testMemPoolAccept env (sandshrew this) [rawTx]) ;;
  match results with
  | [] => throw (TypeError "Cannot read properties of undefined (reading 'allowed')")
  | result :: _ =>
      if negb (allowed result) then
        throw (JsError (opt_default (reject_reason result) ""))
      else
        sandshrew_op (SSendRawTransaction rawTx)
          (sendRawTransaction env (sandshrew this) rawTx) ;;;
        sandshrew_op (SWaitForTransaction txId)
          (waitForTransaction env txId (sandshrew this)) ;;;
        txInMemPool <- sandshrew_op (SGetMemPoolEntry txId)
                         (getMemPoolEntry env (sandshrew this) txId) ;;
        let fee := mul (fees_base txInMemPool) ten_pow_8 in
        ret {| txId := txId;
               rawTx := rawTx;
               size := vsize txInMemPool;
               weight := entry_weight txInMemPool;
               fee := fee;
               satsPerVByte :=
                 Number_toFixed (Number_toString env)
                   (div fee (div (entry_weight txInMemPool) 4%float)) 2 |}
  end.

(** The two guards on the arguments that open [pushPsbt]. *)
Definition check_args (a : PushPsbtArgs) : M W unit :=
  if negb (opt_truthy (psbtHex a)) && negb (opt_truthy (psbtBase64 a)) then
    throw (JsError "Please supply psbt in either base64 or hex format")
  else if opt_truthy (psbtHex a) && opt_truthy (psbtBase64 a) then
    throw (JsError "Please select one format of psbt to broadcast")
  else ret tt.

(** [pushPsbt] up to the extracted transaction: guards, decoding,
    extraction. *)
Definition prepare (a : PushPsbtArgs) : M W Transaction :=
  check_args a ;;;
  psbt <- decode_psbt a ;;
  extract psbt.

Definition pushPsbt (a : PushPsbtArgs) : M W Receipt :=
  extractedTx <- prepare a ;;
  if useBlockstreamFallback this || negb (object_truthy (sandshrew this)) then
    push_blockstream extractedTx
  else
    push_sandshrew extractedTx.
End Methods.
End Provider.

(** ** A scripted environment

    A concrete set of collaborators on which the model runs: the HTTP side
    answers from a script (one reply per request, a transport failure once
    the script is exhausted), the Sandshrew side answers while it is
    online. *)

Record ScriptedWorld : Type := {
  http_script : list (Reply Response);
  sandshrew_online : bool
}.

Definition json_response (v : Value) : Response :=
  {| resp_ok := true; resp_statusText := "OK";
     resp_text := Replied ""; resp_json := Replied v |}.

Definition text_response (body : string) : Response :=
  {| resp_ok := true; resp_statusText := "OK";
     resp_text := Replied body; resp_json := Failed "Unexpected token" |}.

Definition error_response (status body : string) : Response :=
  {| resp_ok := false; resp_statusText := status;
     resp_text := Replied body; resp_json := Failed "Unexpected token" |}.

Definition when_online {A} (a : A) (w : ScriptedWorld) : Reply A * ScriptedWorld :=
  if sandshrew_online w then (Replied a, w) else (Failed "ECONNREFUSED", w).

Definition scripted : Collaborators ScriptedWorld string :=
  {| fetch := fun _ w =>
       match http_script w with
       | [] => (Failed "ENOTFOUND", w)
       | r :: rest =>
           (r, {| http_script := rest; sandshrew_online := sandshrew_online w |})
       end;
     Number_toString := fun _ => "";
     Psbt_fromHex := fun s _ =>
       if s =? "zz" then Failed "Format Error: Invalid Magic Number" else Replied s;
     Psbt_fromBase64 := fun s _ =>
       if s =? "!!" then Failed "Format Error: Invalid Magic Number" else Replied s;
     Psbt_extractTransaction := fun p =>
       if p =? "unsigned" then Failed "Not finalized"
       else Replied {| tx_getId := "id:" ++ p; tx_toHex := p;
                       tx_virtualSize := 100%float; tx_weight := 400%float |};
     Sandshrew_multiCall := fun _ calls =>
       when_online (map (fun _ => {| result := VStr "sandshrew" |}) calls);
     testMemPoolAccept := fun _ txs =>
       when_online (map (fun tx => if tx =? "dust"
                                   then {| allowed := false; reject_reason := Some "dust" |}
                                   else {| allowed := true; reject_reason := None |}) txs);
     sendRawTransaction := fun _ tx => when_online ("id:" ++ tx);
     getMemPoolEntry := fun _ _ =>
       when_online {| vsize := 100%float; entry_weight := 400%float;
                      fees_base := 0x1.4f8b588e368f1p-17%float |};
     waitForTransaction := fun _ _ => when_online tt |}.

Definition scripted_args (nt : NetworkType) (fallback : option bool)
  : ProviderConstructorArgs :=
  {| arg_url := "https://mainnet.sandshrew.io";
     arg_projectId := "lasereyes";
     arg_network := NetBitcoin;
     arg_networkType := nt;
     arg_version := None;
     arg_apiProvider := VUndefined;
     arg_fallbackToBlockstream := fallback |}.

Definition offline : ScriptedWorld :=
  {| http_script := []; sandshrew_online := false |}.

Definition online (script : list (Reply Response)) : ScriptedWorld :=
  {| http_script := script; sandshrew_online := true |}.

(** ** Observations on runs *)

(** [silent f m]: no event emitted by [m] satisfies [f]. *)
Definition silent {W A} (f : Event -> bool) (m : M W A) : Prop :=
  forall w, filter f (events_of (m w)) = [].

(** Which events are invocations of the Blockstream client's batch method,
    which belong to the Sandshrew side, which to the Blockstream side. *)
Definition is_secondary_batch (ev : Event) : bool :=
  match ev with
  | EBlockstream (BMultiCall _) => true
  | _ => false
  end.

Definition is_sandshrew (ev : Event) : bool :=
  match ev with
  | ESandshrew _ => true
  | _ => false
  end.

Definition is_blockstream (ev : Event) : bool :=
  match ev with
  | EBlockstream _ | EFetch _ => true
  | _ => false
  end.

(** The envelope a turn of the loop pushes for an outcome of the [switch]. *)
Definition envelope_of (o : Outcome Value) : Envelope :=
  match o with
  | Ok v => {| result := v |}
  | Throw _ => {| result := VNull |}
  end.

(** The two failures raised by the guards on the arguments of [pushPsbt]. *)
Definition invalid_input (e : Exn) : bool :=
  match e with
  | JsError msg =>
      (msg =? "Please supply psbt in either base64 or hex format")
      || (msg =? "Please select one format of psbt to broadcast")
  | _ => false
  end.

(** Renderings with exactly two decimal places: an optional sign, at least
    one digit, a point, two digits. *)
Definition is_digit (ch : ascii) : bool :=
  (48 <=? nat_of_ascii ch)%nat && (nat_of_ascii ch <=? 57)%nat.

Fixpoint all_digits (s : string) : bool :=
  match s with
  | EmptyString => true
  | String ch rest => is_digit ch && all_digits rest
  end.



(** The number a string of decimal digits denotes. *)
Definition digit_value (ch : ascii) : Z := Z.of_nat (nat_of_ascii ch) - 48.

Fixpoint digits_value_from (acc : Z) (s : string) : Z :=
  match s with
  | EmptyString => acc
  | String ch rest => digits_value_from (acc * 10 + digit_value ch) rest
  end.

Definition digits_value (s : string) : Z := digits_value_from 0 s.

(** [s] is the fixed notation of [n] hundredths, with a minus sign when
    [negative]: sign, integer digits, a point, two digits, and the digits
    read as [n / 100]. *)
Definition renders_hundredths (s : string) (negative : bool) (n : Z) : Prop :=
  exists whole frac,
    s = (if negative then "-" else "") ++ whole ++ "." ++ frac
    /\ whole <> "" /\ all_digits whole = true
    /\ String.length frac = 2 /\ all_digits frac = true
    /\ (digits_value whole * 100 + digits_value frac = n)%Z.




(** Sample inputs for the scripted environment. *)
Definition signet_client : BlockstreamEsploraClient :=
  {| baseUrl := "https://mempool.space/signet/api" |}.

Definition scripted_provider (nt : NetworkType) (flag : bool)
    (client : option BlockstreamEsploraClient) : Provider :=
  {| sandshrew := {| rpc_url := "https://mainnet.sandshrew.io/v1/lasereyes" |};
     esplora := {| rpc_url := "https://mainnet.sandshrew.io/v1/lasereyes" |};
     ord := {| rpc_url := "https://mainnet.sandshrew.io/v1/lasereyes" |};
     api := VUndefined;
     alkanes := {| rpc_url := "https://mainnet.sandshrew.io/v1/lasereyes" |};
     blockstreamEsplora := client;
     network := NetBitcoin;
     networkType := nt;
     url := "https://mainnet.sandshrew.io/v1/lasereyes";
     useBlockstreamFallback := flag |}.

Definition sample_calls : list Call :=
  [("esplora_address::utxo", [VStr "bc1q"]);
   ("nope", []);
   ("ord_output", [VNum 1%float]);
   ("ord_output", [VStr "ab:0"]);
   ("btc_getblockcount", []);
   ("alkanes_protorunesbyoutpoint", [])].

Definition sample_script : list (Reply Response) :=
  [Replied (json_response (VArr [])); Replied (error_response "Bad Gateway" "")].

Definition hex_only (payload : string) : PushPsbtArgs :=
  {| psbtHex := Some payload; psbtBase64 := None |}.

(** Requests that leave through [fetch]. *)
Definition is_fetch (ev : Event) : bool :=
  match ev with
  | EFetch _ => true
  | _ => false
  end.

(** The methods of the batch vocabulary that are answered by the network;
    the other recognized methods are answered on the spot. *)
Definition network_method (method : string) : bool :=
  (method =? "esplora_address::utxo") || (method =? "btc_getblockcount")
  || (method =? "esplora_tx").


(** The request [fetch(url, { method: 'POST', ... body })] of [pushTx]. *)
Definition post_text_request (url body : string) : Request :=
  {| req_url := url; req_method := POST;
     req_headers := [("Content-Type", "text/plain")];
     req_body := Some body |}.


(** A path segment of the master URL: empty pieces leave no trace. *)
Definition segment (piece : string) : string :=
  if string_truthy piece then "/" ++ piece else "".

(** The scripted environment with a Sandshrew whose mempool test answers
    with an empty array. *)
Definition scripted_empty_test : Collaborators ScriptedWorld string :=
  {| fetch := fetch scripted;
     Number_toString := Number_toString scripted;
     Psbt_fromHex := Psbt_fromHex scripted;
     Psbt_fromBase64 := Psbt_fromBase64 scripted;
     Psbt_extractTransaction := Psbt_extractTransaction scripted;
     Sandshrew_multiCall := Sandshrew_multiCall scripted;
     testMemPoolAccept := fun _ _ => when_online [];
     sendRawTransaction := sendRawTransaction scripted;
     getMemPoolEntry := getMemPoolEntry scripted;
     waitForTransaction := waitForTransaction scripted |}.

Definition offline_calls : list Call :=
  [("nope", []); ("ord_output", [VStr "ab:0"]);
   ("alkanes_protorunesbyoutpoint", [VStr "ab:0"])].

(** * Properties *)

(** ** The model on concrete inputs *)

Example toFixed_ties_go_up : Number_toFixed (fun _ => "") 2.5%float 0 = "3".
Proof. vm_compute. reflexivity. Qed.

(** 1.005 is the binary64 number just below it. *)
Example toFixed_rounds_the_exact_value :
  Number_toFixed (fun _ => "") 0x1.0147ae147ae14p+0%float 2 = "1.00".
Proof. vm_compute. reflexivity. Qed.

Example toFixed_keeps_the_sign :
  Number_toFixed (fun _ => "") (-0.0009765625)%float 2 = "-0.00".
Proof. vm_compute. reflexivity. Qed.

Example toFixed_of_a_division_by_zero :
  Number_toFixed (fun _ => "") (div 1000%float (div 0%float 4%float)) 2 = "Infinity".
Proof. vm_compute. reflexivity. Qed.

Example split_outpoint : split_on ":" "ab:0" = ["ab"; "0"].
Proof. reflexivity. Qed.

Example regtest_has_no_public_explorer :
  Blockstream.new Regtest = Throw (JsError "Unsupported network type: regtest").
Proof. reflexivity. Qed.

Example batch_on_signet :
  outcome_of (Blockstream.multiCall scripted signet_client sample_calls
                (online sample_script))
  = Ok [{| result := VArr [] |};
        {| result := VNull |};
        {| result := VNull |};
        {| result := VObj [("indexed", VBool true); ("inscriptions", VArr []);
                           ("runes", VObj [])] |};
        {| result := VNull |};
        {| result := VArr [] |}].
Proof. vm_compute. reflexivity. Qed.

(** Sandshrew down on mainnet: the batch falls back to Blockstream. *)
Example mainnet_falls_back :
  filter is_secondary_batch
    (events_of (Provider.multiCall scripted
                  (scripted_provider Mainnet false
                     (Some {| baseUrl := "https://blockstream.info/api" |}))
                  [("btc_getblockcount", [])] offline))
  = [EBlockstream (BMultiCall [("btc_getblockcount", [])])].
Proof. vm_compute. reflexivity. Qed.

(** An empty hex string is falsy: with a base64 payload beside it the
    guards pass and the base64 payload is decoded. *)
Example empty_hex_counts_as_missing :
  outcome_of (Provider.prepare scripted (scripted_provider Mainnet false None)
                {| psbtHex := Some ""; psbtBase64 := Some "cHNidP8=" |} offline)
  = Ok {| tx_getId := "id:cHNidP8="; tx_toHex := "cHNidP8=";
          tx_virtualSize := 100%float; tx_weight := 400%float |}.
Proof. vm_compute. reflexivity. Qed.

Example rejected_by_mempool :
  outcome_of (Provider.pushPsbt scripted (scripted_provider Mainnet false None)
                (hex_only "dust") (online []))
  = Throw (JsError "dust").
Proof. vm_compute. reflexivity. Qed.

(** ** Facts about the monad *)

Section MonadFacts.
Context {W : Type}.

Lemma bind_ret_l {A B} (a : A) (k : A -> M W B) w :
  bind (ret a) k w = k a w.
Proof.
  unfold bind, ret. destruct (k a w) as [[r w2] l2]. reflexivity.
Qed.

Lemma bind_assoc {A B C} (m : M W A) (k : A -> M W B) (h : B -> M W C) w :
  bind (bind m k) h w = bind m (fun a => bind (k a) h) w.
Proof.
  unfold bind. destruct (m w) as [[[a|e] w1] l1]; [|reflexivity].
  destruct (k a w1) as [[[b|e] w2] l2]; [|reflexivity].
  destruct (h b w2) as [[r w3] l3]. now rewrite app_assoc.
Qed.

Lemma bind_ext {A B} (m : M W A) (k k' : A -> M W B) w :
  (forall a w1, k a w1 = k' a w1) -> bind m k w = bind m k' w.
Proof.
  intros H. unfold bind. destruct (m w) as [[[a|e] w1] l1]; [|reflexivity].
  now rewrite H.
Qed.

Lemma bind_emit {B} (ev : Event) (k : unit -> M W B) w :
  bind (emit ev) k w =
  (outcome_of (k tt w), world_of (k tt w), ev :: events_of (k tt w)).
Proof.
  unfold bind, emit. destruct (k tt w) as [[r w2] l2]. reflexivity.
Qed.

Lemma silent_ret {A} f (a : A) : silent f (@ret W A a).
Proof. intro w. reflexivity. Qed.

Lemma silent_throw {A} f e : silent f (@throw W A e).
Proof. intro w. reflexivity. Qed.

Lemma silent_lift_outcome {A} f (o : Outcome A) : silent f (@lift_outcome W A o).
Proof. intro w. reflexivity. Qed.

Lemma silent_ask {A} f (oracle : W -> Reply A * W) : silent f (ask oracle).
Proof. intro w. unfold ask. now destruct (oracle w). Qed.

Lemma silent_emit f ev : f ev = false -> silent f (@emit W ev).
Proof. intros H w. simpl. now rewrite H. Qed.

Lemma silent_console f lvl msg payload :
  f (EConsole lvl msg payload) = false -> silent f (@console W lvl msg payload).
Proof. apply silent_emit. Qed.

Lemma silent_bind {A B} f (m : M W A) (k : A -> M W B) :
  silent f m -> (forall a, silent f (k a)) -> silent f (bind m k).
Proof.
  intros Hm Hk w. specialize (Hm w). unfold bind.
  destruct (m w) as [[[a|e] w1] l1]; simpl in *; [|assumption].
  specialize (Hk a w1). destruct (k a w1) as [[r w2] l2]; simpl in *.
  now rewrite filter_app, Hm, Hk.
Qed.

Lemma silent_try_catch {A} f (m : M W A) (h : Exn -> M W A) :
  silent f m -> (forall e, silent f (h e)) -> silent f (try_catch m h).
Proof.
  intros Hm Hh w. specialize (Hm w). unfold try_catch.
  destruct (m w) as [[[a|e] w1] l1]; simpl in *; [assumption|].
  specialize (Hh e w1). destruct (h e w1) as [[r w2] l2]; simpl in *.
  now rewrite filter_app, Hm, Hh.
Qed.
End MonadFacts.

(** Discharges [silent] goals by following the structure of the
    computation. *)
Ltac silence :=
  repeat first
    [ apply silent_ret | apply silent_throw | apply silent_lift_outcome
    | apply silent_ask
    | apply silent_emit; reflexivity
    | apply silent_console; reflexivity
    | apply silent_bind | apply silent_try_catch
    | match goal with
      | |- forall _, _ => intro
      | |- silent _ (if ?b then _ else _) => destruct b
      | |- silent _ (match ?x with _ => _ end) => destruct x
      end ].

(** ** The Blockstream client's batch method *)

Section BlockstreamFacts.
Context {W Psbt : Type} (env : Collaborators W Psbt).
Variable c : BlockstreamEsploraClient.

Lemma multiCall_step_spec results call w :
  exists l,
    Blockstream.multiCall_step env c results call w =
    (Ok (results ++ [envelope_of
           (outcome_of (Blockstream.multiCall_switch env c (fst call) (snd call) w))])%list,
     world_of (Blockstream.multiCall_switch env c (fst call) (snd call) w), l).
Proof.
  destruct call as [method params]. simpl.
  unfold Blockstream.multiCall_step, try_catch, bind.
  destruct (Blockstream.multiCall_switch env c method params w) as [[[v|e] w1] l1];
    simpl; eexists; reflexivity.
Qed.

Lemma multiCall_loop_total calls : forall results w,
  exists rs w' l,
    Blockstream.multiCall_loop env c calls results w = (Ok (results ++ rs)%list, w', l)
    /\ List.length rs = List.length calls.
Proof.
  induction calls as [|call rest IH]; intros results w; simpl.
  - exists [], w, []. now rewrite app_nil_r.
  - destruct (multiCall_step_spec results call w) as [l Hstep].
    unfold bind at 1. rewrite Hstep.
    edestruct IH as (rs & w' & l' & Hloop & Hlen). rewrite Hloop.
    eexists (_ :: rs), w', _. rewrite <- app_assoc. simpl. split; [reflexivity|].
    now rewrite Hlen.
Qed.

Lemma multiCall_loop_app xs : forall ys results w,
  Blockstream.multiCall_loop env c (xs ++ ys) results w =
  bind (Blockstream.multiCall_loop env c xs results)
       (Blockstream.multiCall_loop env c ys) w.
Proof.
  induction xs as [|x xs IH]; intros ys results w; simpl.
  - now rewrite bind_ret_l.
  - rewrite bind_assoc. apply bind_ext. intros a w1. apply IH.
Qed.

Lemma multiCall_unfold calls w :
  Blockstream.multiCall env c calls w =
  (outcome_of (Blockstream.multiCall_loop env c calls [] w),
   world_of (Blockstream.multiCall_loop env c calls [] w),
   EBlockstream (BMultiCall calls)
     :: events_of (Blockstream.multiCall_loop env c calls [] w)).
Proof. unfold Blockstream.multiCall. apply bind_emit. Qed.

(** The batch method always returns. *)
Lemma multiCall_returns calls w :
  exists rs w' l,
    Blockstream.multiCall env c calls w =
    (Ok rs, w', EBlockstream (BMultiCall calls) :: l)
    /\ List.length rs = List.length calls
    /\ Blockstream.multiCall_loop env c calls [] w = (Ok rs, w', l).
Proof.
  destruct (multiCall_loop_total calls [] w) as (rs & w' & l & H & Hlen).
  simpl in H. exists rs, w', l. rewrite multiCall_unfold, H. auto.
Qed.

Lemma multiCall_switch_unknown method params w :
  Blockstream.known_method method = false ->
  Blockstream.multiCall_switch env c method params w =
  (Ok VNull, w, [EConsole LogWarn ("Unsupported method in multiCall: " ++ method) None]).
Proof.
  unfold Blockstream.known_method, Blockstream.multiCall_switch. intros H.
  repeat (apply orb_false_iff in H; destruct H as [H ?]).
  repeat match goal with E : (_ =? _) = false |- _ => rewrite E; clear E end.
  reflexivity.
Qed.

(** Inside a batch, no batch is started. *)
Lemma multiCall_loop_no_batch calls : forall results,
  silent is_secondary_batch (Blockstream.multiCall_loop env c calls results).
Proof.
  induction calls as [|[method params] rest IH]; intros results; simpl.
  - silence.
  - apply silent_bind; [|intro; apply IH].
    unfold Blockstream.multiCall_step, Blockstream.multiCall_switch,
      Blockstream.getAddressUtxos, Blockstream.getTxInfo,
      Blockstream.getBlockHeight, Blockstream.http_get.
    silence.
Qed.

(** Posting a transaction never touches the Sandshrew side. *)
Lemma pushTx_no_sandshrew txHex :
  silent is_sandshrew (Blockstream.pushTx env c txHex).
Proof.
  unfold Blockstream.pushTx, Blockstream.http_post_text. silence.
Qed.

Lemma pushTx_events txHex w :
  exists l, events_of (Blockstream.pushTx env c txHex w)
            = EBlockstream (BPushTx txHex) :: l.
Proof.
  unfold Blockstream.pushTx. rewrite bind_emit. simpl. eexists; reflexivity.
Qed.
End BlockstreamFacts.

(** C1.  The batch method of the Blockstream client returns, for every
    batch of N calls, exactly N envelopes and never raises.  The envelopes
    are aligned with the calls: the batch of the first [i] calls returns the
    first [i] envelopes, and the envelope at position [i] is the one of the
    [switch] run on call [i] in the world those first [i] calls leave behind,
    so every call is executed whatever happened to the calls before it.  An
    unrecognized method name, and a call whose adapter raises, give a [null]
    envelope at that position. *)
Theorem multiCall_envelopes_aligned {W Psbt : Type} (env : Collaborators W Psbt)
    (c : BlockstreamEsploraClient) (calls : list Call) (w : W) :
  exists rs w' evs,
    Blockstream.multiCall env c calls w = (Ok rs, w', evs)
    /\ List.length rs = List.length calls
    /\ forall i method params,
         nth_error calls i = Some (method, params) ->
         let before := Blockstream.multiCall env c (firstn i calls) w in
         let run := Blockstream.multiCall_switch env c method params (world_of before) in
         outcome_of before = Ok (firstn i rs)
         /\ nth_error rs i = Some (envelope_of (outcome_of run))
         /\ (Blockstream.known_method method = false ->
             nth_error rs i = Some {| result := VNull |})
         /\ (forall e, outcome_of run = Throw e ->
             nth_error rs i = Some {| result := VNull |}).
Proof.
  destruct (multiCall_returns env c calls w) as (rs & w' & l & Hrun & Hlen & Hloop).
  exists rs, w', (EBlockstream (BMultiCall calls) :: l).
  split; [exact Hrun|]. split; [exact Hlen|].
  intros i method params Hnth.
  destruct (nth_error_split calls i Hnth) as (pre & post & Hcalls & Hpre).
  assert (Hfirst : firstn i calls = pre).
  { rewrite Hcalls, <- Hpre. rewrite firstn_app, Nat.sub_diag, firstn_all.
    simpl. apply app_nil_r. }
  rewrite Hfirst.
  destruct (multiCall_returns env c pre w) as (r1 & w1 & l1 & Hpre_run & Hlen1 & Hpre_loop).
  rewrite Hpre_run. cbn zeta. unfold outcome_of, world_of. simpl fst. simpl snd.
  assert (Hshape : exists r2, rs = (r1 ++ [envelope_of
            (outcome_of (Blockstream.multiCall_switch env c method params w1))] ++ r2)%list).
  { rewrite Hcalls, multiCall_loop_app in Hloop.
    unfold bind in Hloop at 1. rewrite Hpre_loop in Hloop.
    destruct (multiCall_step_spec env c r1 (method, params) w1) as [ls Hstep].
    simpl fst in Hstep. simpl snd in Hstep.
    cbn [Blockstream.multiCall_loop] in Hloop.
    unfold bind in Hloop at 1. rewrite Hstep in Hloop. simpl fst in Hloop. simpl snd in Hloop.
    edestruct (multiCall_loop_total env c post) as (r2 & w2 & l2 & Hpost & _).
    rewrite Hpost in Hloop. exists r2.
    injection Hloop as Hrs _ _. rewrite <- Hrs. now rewrite <- app_assoc. }
  destruct Hshape as [r2 Hrs].
  assert (Hi : List.length r1 = i) by congruence.
  assert (Hat : nth_error rs i = Some (envelope_of
            (outcome_of (Blockstream.multiCall_switch env c method params w1)))).
  { rewrite Hrs, nth_error_app2 by lia. now rewrite Hi, Nat.sub_diag. }
  repeat split.
  - f_equal. rewrite Hrs, <- Hi. rewrite firstn_app, Nat.sub_diag, firstn_all.
    simpl. symmetry. apply app_nil_r.
  - exact Hat.
  - intros Hunknown. rewrite Hat.
    now rewrite (multiCall_switch_unknown env c method params w1 Hunknown).
  - intros e He. rewrite Hat. unfold outcome_of in He |- *. now rewrite He.
Qed.

(** ** Routing of batches by the Provider *)

Section RoutingFacts.
Context {W Psbt : Type} (env : Collaborators W Psbt).
Variable p : Provider.

(** With the fallback flag set and a Blockstream client at hand, the
    batch is the Blockstream client's. *)
Lemma route_secondary_first c calls w :
  useBlockstreamFallback p = true ->
  blockstreamEsplora p = Some c ->
  Provider.multiCall env p calls w = Blockstream.multiCall env c calls w.
Proof.
  intros Hflag Hc. unfold Provider.multiCall. rewrite Hflag, Hc.
  destruct (multiCall_returns env c calls w) as (rs & w' & l & Hrun & _).
  unfold bind at 1. unfold try_catch. unfold bind at 1. rewrite Hrun.
  simpl. now rewrite !app_nil_r.
Qed.

(** Otherwise the batch goes to Sandshrew first. *)
Lemma route_primary_first calls w :
  useBlockstreamFallback p = false \/ blockstreamEsplora p = None ->
  Provider.multiCall env p calls w =
  match Sandshrew_multiCall env (sandshrew p) calls w with
  | (Replied rs, w1) => (Ok rs, w1, [ESandshrew (SMultiCall calls)])
  | (Failed d, w1) =>
      let warned := [ESandshrew (SMultiCall calls);
                     EConsole LogWarn "Sandshrew multiCall failed:"
                       (Some (External d))] in
      match blockstreamEsplora p, useBlockstreamFallback p with
      | Some c, false =>
          let r := Blockstream.multiCall env c calls w1 in
          (outcome_of r, world_of r,
           warned ++ EConsole LogInfo "Falling back to Blockstream Esplora" None
                  :: events_of r)%list
      | _, _ => (Throw (External d), w1, warned)
      end
  end.
Proof.
  intros Hcfg. unfold Provider.multiCall.
  assert (Hskip : match useBlockstreamFallback p, blockstreamEsplora p with
                  | true, Some client =>
                      try_catch
                        (r <- Blockstream.multiCall env client calls ;; ret (Some r))
                        (fun error =>
                           console LogWarn
                             "Blockstream Esplora multiCall failed, trying Sandshrew:"
                             (Some error) ;;; ret None)
                  | _, _ => ret None
                  end = @ret W _ None).
  { destruct Hcfg as [H|H]; rewrite H; [reflexivity|].
    now destruct (useBlockstreamFallback p). }
  rewrite Hskip, bind_ret_l.
  unfold try_catch, Provider.sandshrew_multiCall, Provider.sandshrew_op.
  rewrite bind_emit. unfold ask, outcome_of, world_of, events_of.
  destruct (Sandshrew_multiCall env (sandshrew p) calls w) as [[rs|d] w1]; simpl;
    [reflexivity|].
  destruct (blockstreamEsplora p) as [c|]; [|reflexivity].
  destruct (useBlockstreamFallback p); [reflexivity|]. simpl.
  unfold bind at 1. simpl. unfold bind at 1. simpl.
  destruct (Blockstream.multiCall env c calls w1) as [[r w2] l2]. reflexivity.
Qed.

Lemma sandshrew_multiCall_unfold calls w :
  Provider.sandshrew_multiCall env p calls w =
  (outcome_of_reply (fst (Sandshrew_multiCall env (sandshrew p) calls w)),
   snd (Sandshrew_multiCall env (sandshrew p) calls w),
   [ESandshrew (SMultiCall calls)]).
Proof.
  unfold Provider.sandshrew_multiCall, Provider.sandshrew_op.
  rewrite bind_emit. unfold ask, outcome_of, world_of, events_of.
  now destruct (Sandshrew_multiCall env (sandshrew p) calls w).
Qed.
End RoutingFacts.

(** The constructor never raises, leaves the world as it is, and decides
    the two routing fields from the network type and the flag alone. *)
Lemma Provider_new_spec {W : Type} (args : ProviderConstructorArgs) (w : W) :
  exists p l,
    Provider.new args w = (Ok p, w, l)
    /\ useBlockstreamFallback p =
       (opt_default (arg_fallbackToBlockstream args) false
        || NetworkType_eqb (arg_networkType args) Signet)
    /\ blockstreamEsplora p =
       match Blockstream.new (arg_networkType args) with
       | Ok c => Some c
       | Throw _ => None
       end.
Proof.
  unfold Provider.new.
  destruct args as [u pid net nt ver apiv fb]; simpl.
  destruct nt, (opt_default fb false); simpl;
    unfold bind, try_catch, lift_outcome, ret, console, emit; simpl;
    eexists; eexists; (split; [reflexivity|split; reflexivity]).
Qed.

(** C2.  One invocation of the Provider's [multiCall] starts at most one
    batch on the Blockstream client: whether that client is tried first or
    as the fallback after a Sandshrew failure, never both. *)
Theorem secondary_attempted_at_most_once {W Psbt : Type}
    (env : Collaborators W Psbt) (p : Provider) (calls : list Call) (w : W) :
  List.length (filter is_secondary_batch
                 (events_of (Provider.multiCall env p calls w))) <= 1.
Proof.
  destruct (useBlockstreamFallback p) eqn:Hflag.
  - destruct (blockstreamEsplora p) as [c|] eqn:Hc.
    + rewrite (route_secondary_first env p c calls w Hflag Hc).
      rewrite multiCall_unfold. simpl.
      now rewrite (multiCall_loop_no_batch env c calls [] w).
    + rewrite route_primary_first by now right.
      destruct (Sandshrew_multiCall env (sandshrew p) calls w) as [[rs|d] w1];
        rewrite ?Hc; simpl; lia.
  - rewrite route_primary_first by now left.
    destruct (Sandshrew_multiCall env (sandshrew p) calls w) as [[rs|d] w1];
      [simpl; lia|].
    destruct (blockstreamEsplora p) as [c|]; rewrite ?Hflag; [|simpl; lia].
    rewrite multiCall_unfold. simpl.
    now rewrite (multiCall_loop_no_batch env c calls [] w1).
Qed.

(** C3.  A Provider constructed for signet has [useBlockstreamFallback]
    set whatever the explicit flag says, and each of its routed batches
    starts with the batch on the Blockstream client: whenever a Sandshrew
    batch is among the events, the Blockstream batch precedes it. *)
Theorem signet_tries_secondary_first {W Psbt : Type}
    (env : Collaborators W Psbt) (args : ProviderConstructorArgs) (w0 : W) :
  arg_networkType args = Signet ->
  exists p l,
    Provider.new args w0 = (Ok p, w0, l)
    /\ useBlockstreamFallback p = true
    /\ forall calls w,
         (exists rest, events_of (Provider.multiCall env p calls w)
                       = EBlockstream (BMultiCall calls) :: rest)
         /\ forall pre post sent,
              events_of (Provider.multiCall env p calls w)
              = (pre ++ ESandshrew (SMultiCall sent) :: post)%list ->
              In (EBlockstream (BMultiCall calls)) pre.
Proof.
  intros Hnet.
  destruct (Provider_new_spec args w0) as (p & l & Hnew & Hflag & Hclient).
  rewrite Hnet in Hflag, Hclient. simpl in Hclient.
  rewrite orb_true_r in Hflag.
  exists p, l. split; [exact Hnew|]. split; [exact Hflag|].
  intros calls w.
  rewrite (route_secondary_first env p _ calls w Hflag Hclient).
  rewrite multiCall_unfold. simpl. split; [eexists; reflexivity|].
  intros [|ev pre] post sent Heq; simpl in Heq.
  - discriminate Heq.
  - injection Heq as Hev _. subst ev. now left.
Qed.

(** C4.  Without a Blockstream client, a failure of the Sandshrew batch
    leaves the Provider's [multiCall] as the very same exception, in the
    world the Sandshrew call left behind. *)
Theorem primary_failure_propagates_unchanged {W Psbt : Type}
    (env : Collaborators W Psbt) (p : Provider) (calls : list Call) (w : W)
    (e : Exn) :
  blockstreamEsplora p = None ->
  outcome_of (Provider.sandshrew_multiCall env p calls w) = Throw e ->
  outcome_of (Provider.multiCall env p calls w) = Throw e
  /\ world_of (Provider.multiCall env p calls w)
     = world_of (Provider.sandshrew_multiCall env p calls w).
Proof.
  intros Hnone. rewrite sandshrew_multiCall_unfold.
  rewrite route_primary_first by now right.
  unfold outcome_of, world_of. simpl.
  destruct (Sandshrew_multiCall env (sandshrew p) calls w) as [[rs|d] w1]; simpl.
  - discriminate.
  - rewrite Hnone. simpl. auto.
Qed.

(** C8.  When the constructor of the Blockstream client raises for the
    network type, the Provider's constructor still returns, with the
    Blockstream client absent, and every batch is then routed to Sandshrew
    alone: same outcome, same world, nothing sent to Blockstream. *)
Theorem constructor_survives_secondary_failure {W Psbt : Type}
    (env : Collaborators W Psbt) (args : ProviderConstructorArgs) (w0 : W)
    (e : Exn) :
  Blockstream.new (arg_networkType args) = Throw e ->
  exists p l,
    Provider.new args w0 = (Ok p, w0, l)
    /\ blockstreamEsplora p = None
    /\ forall calls w,
         outcome_of (Provider.multiCall env p calls w)
         = outcome_of (Provider.sandshrew_multiCall env p calls w)
         /\ world_of (Provider.multiCall env p calls w)
            = world_of (Provider.sandshrew_multiCall env p calls w)
         /\ filter is_blockstream (events_of (Provider.multiCall env p calls w)) = [].
Proof.
  intros Hfail.
  destruct (Provider_new_spec args w0) as (p & l & Hnew & _ & Hclient).
  rewrite Hfail in Hclient.
  exists p, l. split; [exact Hnew|]. split; [exact Hclient|].
  intros calls w. rewrite sandshrew_multiCall_unfold.
  rewrite route_primary_first by now right.
  unfold outcome_of, world_of, events_of.
  destruct (Sandshrew_multiCall env (sandshrew p) calls w) as [[rs|d] w1];
    rewrite ?Hclient; simpl; auto.
Qed.

(** C10.  After construction the Blockstream client is present exactly for
    mainnet, testnet and signet, whatever the explicit flag, and absent
    exactly for regtest. *)
Theorem secondary_present_iff_public_network {W : Type}
    (args : ProviderConstructorArgs) (w0 : W) :
  exists p l,
    Provider.new args w0 = (Ok p, w0, l)
    /\ ((exists c, blockstreamEsplora p = Some c)
        <-> In (arg_networkType args) [Mainnet; Testnet; Signet])
    /\ (blockstreamEsplora p = None <-> arg_networkType args = Regtest).
Proof.
  destruct (Provider_new_spec args w0) as (p & l & Hnew & _ & Hclient).
  exists p, l. split; [exact Hnew|].
  destruct (arg_networkType args); simpl in Hclient; rewrite Hclient; simpl;
    (split; split);
    solve [ intros [c Hc]; discriminate Hc
          | intros _; eexists; reflexivity
          | intros; tauto
          | intros H; discriminate H
          | intros [H|[H|[H|[]]]]; discriminate H
          | reflexivity ].
Qed.

(** ** Renderings of [toFixed] *)



















Example ten_renders_as_1000_hundredths : renders_hundredths "10.00" false 1000.
Proof.
  exists "10", "00". repeat split; try reflexivity. discriminate.
Qed.



(** ** Broadcast *)

Section BroadcastFacts.
Context {W Psbt : Type} (env : Collaborators W Psbt).
Variable p : Provider.

(** Guards, decoding and extraction contact nobody.  Their failure is one
    of the two guard failures exactly when the two arguments are both
    truthy or both falsy. *)
Lemma prepare_spec a w :
  exists o,
    Provider.prepare env p a w = (o, w, [])
    /\ (opt_truthy (psbtHex a) = opt_truthy (psbtBase64 a) ->
        exists e, o = Throw e /\ invalid_input e = true)
    /\ (opt_truthy (psbtHex a) <> opt_truthy (psbtBase64 a) ->
        forall e, o = Throw e -> invalid_input e = false).
Proof.
  unfold Provider.prepare, Provider.check_args, Provider.decode_psbt,
    Provider.extract.
  destruct (opt_truthy (psbtHex a)), (opt_truthy (psbtBase64 a)); simpl.
  - eexists. split; [reflexivity|]. split; [eexists; split; reflexivity|congruence].
  - unfold bind, try_catch, lift_outcome. simpl.
    destruct (Psbt_fromHex env _ _) as [ps|d]; simpl;
      [destruct (Psbt_extractTransaction env ps) as [tx|d]; simpl|];
      (eexists; split; [reflexivity|]; split; [discriminate|]);
      intros _ e He; inversion He; reflexivity.
  - unfold bind, try_catch, lift_outcome. simpl.
    destruct (Psbt_fromBase64 env _ _) as [ps|d]; simpl;
      [destruct (Psbt_extractTransaction env ps) as [tx|d]; simpl|];
      (eexists; split; [reflexivity|]; split; [discriminate|]);
      intros _ e He; inversion He; reflexivity.
  - eexists. split; [reflexivity|]. split; [eexists; split; reflexivity|congruence].
Qed.

Lemma pushPsbt_unfold a w o :
  Provider.prepare env p a w = (o, w, []) ->
  Provider.pushPsbt env p a w =
  match o with
  | Ok tx =>
      if useBlockstreamFallback p then Provider.push_blockstream env p tx w
      else Provider.push_sandshrew env p tx w
  | Throw e => (Throw e, w, [])
  end.
Proof.
  intros H. unfold Provider.pushPsbt, bind. rewrite H.
  destruct o as [tx|e]; [|reflexivity].
  unfold object_truthy. simpl. rewrite orb_false_r.
  destruct (useBlockstreamFallback p).
  - now destruct (Provider.push_blockstream env p tx w) as [[r w'] l].
  - now destruct (Provider.push_sandshrew env p tx w) as [[r w'] l].
Qed.

(** The Blockstream branch: without a client it fails at once; with one
    it posts the transaction first, and a receipt it returns carries the
    local identifiers, a zero fee and the rate ['0']. *)
Lemma push_blockstream_spec tx w :
  match blockstreamEsplora p with
  | None =>
      Provider.push_blockstream env p tx w =
      (Throw (JsError "No available service to broadcast transaction"), w, [])
  | Some c =>
      (exists l, events_of (Provider.push_blockstream env p tx w)
                 = EBlockstream (BPushTx (tx_toHex tx)) :: l)
      /\ forall r, outcome_of (Provider.push_blockstream env p tx w) = Ok r ->
           r = {| txId := tx_getId tx; rawTx := tx_toHex tx;
                  size := tx_virtualSize tx; weight := tx_weight tx;
                  fee := 0%float; satsPerVByte := "0" |}
  end.
Proof.
  unfold Provider.push_blockstream.
  destruct (blockstreamEsplora p) as [c|]; [|reflexivity].
  destruct (pushTx_events env c (tx_toHex tx) w) as [l Hl].
  unfold try_catch, bind, outcome_of, events_of in *.
  destruct (Blockstream.pushTx env c (tx_toHex tx) w) as [[[v|e] w1] l1];
    simpl in *; subst l1; split.
  - eexists; reflexivity.
  - intros r Hr. now inversion Hr.
  - eexists; reflexivity.
  - intros r Hr. discriminate Hr.
Qed.

Lemma push_blockstream_no_sandshrew tx :
  silent is_sandshrew (Provider.push_blockstream env p tx).
Proof.
  unfold Provider.push_blockstream.
  destruct (blockstreamEsplora p) as [c|]; [|silence].
  apply silent_try_catch.
  - apply silent_bind; [apply pushTx_no_sandshrew|silence].
  - silence.
Qed.

(** The Sandshrew branch starts with the mempool test and sends nothing
    to Blockstream. *)
Lemma push_sandshrew_events tx w :
  exists l, events_of (Provider.push_sandshrew env p tx w)
            = ESandshrew (STestMemPoolAccept [tx_toHex tx]) :: l.
Proof.
  unfold Provider.push_sandshrew, Provider.sandshrew_op.
  rewrite bind_assoc, bind_emit. simpl. eexists; reflexivity.
Qed.

Lemma push_sandshrew_no_blockstream tx :
  silent is_blockstream (Provider.push_sandshrew env p tx).
Proof.
  unfold Provider.push_sandshrew, Provider.sandshrew_op. silence.
Qed.

(** A receipt of the Sandshrew branch is built from the mempool entry
    read back last. *)
Lemma push_sandshrew_receipt tx w r :
  outcome_of (Provider.push_sandshrew env p tx w) = Ok r ->
  exists entry w1,
    getMemPoolEntry env (sandshrew p) (tx_getId tx) w1
    = (Replied entry, world_of (Provider.push_sandshrew env p tx w))
    /\ r = {| txId := tx_getId tx; rawTx := tx_toHex tx;
              size := vsize entry; weight := entry_weight entry;
              fee := mul (fees_base entry) ten_pow_8;
              satsPerVByte :=
                Number_toFixed (Number_toString env)
                  (div (mul (fees_base entry) ten_pow_8)
                       (div (entry_weight entry) 4%float)) 2 |}.
Proof.
  unfold Provider.push_sandshrew, Provider.sandshrew_op, outcome_of, world_of.
  unfold bind, emit, ask, throw, ret. simpl.
  destruct (testMemPoolAccept env (sandshrew p) [tx_toHex tx] w) as [[res|d] w1];
    simpl; [|discriminate].
  destruct res as [|res rest]; simpl; [discriminate|].
  destruct (allowed res); simpl; [|discriminate].
  destruct (sendRawTransaction env (sandshrew p) (tx_toHex tx) w1) as [[sent|d] w2];
    simpl; [|discriminate].
  destruct (waitForTransaction env (tx_getId tx) (sandshrew p) w2) as [[u|d] w3];
    simpl; [|discriminate].
  destruct (getMemPoolEntry env (sandshrew p) (tx_getId tx) w3) as [[entry|d] w4] eqn:E;
    simpl; [|discriminate].
  intros Hr. inversion Hr. exists entry, w3. split; [exact E|reflexivity].
Qed.
End BroadcastFacts.

(** C5 (as amended).  A successful broadcast that went through the
    Blockstream client returns a receipt with fee 0 and the rate ['0']. *)
Theorem secondary_broadcast_receipt {W Psbt : Type} (env : Collaborators W Psbt)
    (p : Provider) (a : PushPsbtArgs) (w w' : W) (r : Receipt)
    (l : list Event) (raw : string) :
  Provider.pushPsbt env p a w = (Ok r, w', l) ->
  In (EBlockstream (BPushTx raw)) l ->
  fee r = 0%float /\ satsPerVByte r = "0".
Proof.
  destruct (prepare_spec env p a w) as (o & Hprep & _).
  rewrite (pushPsbt_unfold env p a w o Hprep).
  destruct o as [tx|e]; [|discriminate].
  destruct (useBlockstreamFallback p).
  - pose proof (push_blockstream_spec env p tx w) as Hspec.
    destruct (blockstreamEsplora p) as [c|].
    + destruct Hspec as [_ Hr]. intros Hrun _.
      rewrite (Hr r); [split; reflexivity|]. now rewrite Hrun.
    + rewrite Hspec. discriminate.
  - intros Hrun Hin.
    pose proof (push_sandshrew_no_blockstream env p tx w) as Hquiet.
    rewrite Hrun in Hquiet. simpl in Hquiet.
    assert (Hf : In (EBlockstream (BPushTx raw)) (filter is_blockstream l))
      by (apply filter_In; split; [exact Hin|reflexivity]).
    rewrite Hquiet in Hf. destruct Hf.
Qed.

(** C5 (as stated) fails: on signet a broadcast through the Blockstream
    client succeeds with fee 0, and its rate is ['0'], not ['0.00']. *)
Lemma secondary_broadcast_rate_is_not_0_00 :
  exists r,
    Provider.pushPsbt scripted (scripted_provider Signet true (Some signet_client))
      (hex_only "beef") (online [Replied (text_response "id:beef")])
    = (Ok r, online [],
       [EBlockstream (BPushTx "beef");
        EFetch {| req_url := "https://mempool.space/signet/api/tx";
                  req_method := POST;
                  req_headers := [("Content-Type", "text/plain")];
                  req_body := Some "beef" |}])
    /\ fee r = 0%float
    /\ satsPerVByte r = "0"
    /\ satsPerVByte r <> "0.00".
Proof.
  eexists. split; [vm_compute; reflexivity|]. simpl.
  split; [reflexivity|]. split; [reflexivity|]. discriminate.
Qed.



(** C7.  [pushPsbt] fails with one of the two guard failures, the world
    untouched and nothing emitted, exactly when the hex and the base64
    argument are both given or both missing (given meaning truthy: a
    non-empty string); with exactly one given the guards pass. *)
Theorem pushPsbt_invalid_input_iff {W Psbt : Type} (env : Collaborators W Psbt)
    (p : Provider) (a : PushPsbtArgs) (w : W) :
  ((exists e, Provider.pushPsbt env p a w = (Throw e, w, [])
              /\ invalid_input e = true)
   <-> opt_truthy (psbtHex a) = opt_truthy (psbtBase64 a))
  /\ (opt_truthy (psbtHex a) <> opt_truthy (psbtBase64 a) ->
      Provider.check_args a w = (Ok tt, w, [])).
Proof.
  destruct (prepare_spec env p a w) as (o & Hprep & Hbad & Hgood).
  pose proof (pushPsbt_unfold env p a w o Hprep) as Hrun.
  split; [split|].
  - intros (e & He & Hinv).
    destruct (bool_dec (opt_truthy (psbtHex a)) (opt_truthy (psbtBase64 a)))
      as [Heq|Hneq]; [exact Heq|exfalso].
    specialize (Hgood Hneq). rewrite Hrun in He.
    destruct o as [tx|e0].
    + destruct (useBlockstreamFallback p).
      * pose proof (push_blockstream_spec env p tx w) as Hspec.
        destruct (blockstreamEsplora p) as [c|].
        -- destruct Hspec as [[l0 Hl0] _]. rewrite He in Hl0. discriminate Hl0.
        -- rewrite Hspec in He. inversion He; subst e. discriminate Hinv.
      * destruct (push_sandshrew_events env p tx w) as [l0 Hl0].
        rewrite He in Hl0. discriminate Hl0.
    + inversion He; subst e0. rewrite (Hgood e eq_refl) in Hinv. discriminate Hinv.
  - intros Heq. destruct (Hbad Heq) as (e & Ho & Hinv). subst o.
    exists e. split; assumption.
  - unfold Provider.check_args.
    destruct (opt_truthy (psbtHex a)), (opt_truthy (psbtBase64 a));
      simpl; intros H; solve [reflexivity | now elim H].
Qed.

(** C9.  With the fallback flag set and no Blockstream client, [pushPsbt]
    always fails without contacting any backend, Sandshrew included; once
    the payload has passed the guards and decoded to a transaction, the
    failure is 'No available service to broadcast transaction'. *)
Theorem no_service_without_secondary {W Psbt : Type} (env : Collaborators W Psbt)
    (p : Provider) (a : PushPsbtArgs) (w : W) :
  useBlockstreamFallback p = true ->
  blockstreamEsplora p = None ->
  (exists e, Provider.pushPsbt env p a w = (Throw e, w, []))
  /\ (forall tx, outcome_of (Provider.prepare env p a w) = Ok tx ->
      Provider.pushPsbt env p a w =
      (Throw (JsError "No available service to broadcast transaction"), w, [])).
Proof.
  intros Hflag Hnone.
  destruct (prepare_spec env p a w) as (o & Hprep & _).
  rewrite (pushPsbt_unfold env p a w o Hprep), Hprep, Hflag.
  pose proof (fun tx => push_blockstream_spec env p tx w) as Hspec.
  rewrite Hnone in Hspec.
  destruct o as [tx|e]; simpl.
  - rewrite Hspec. split; [eexists; reflexivity|reflexivity].
  - split; [eexists; reflexivity|]. intros tx Htx. discriminate Htx.
Qed.

(** ** The theorems at work on the scripted environment *)

(** A batch of six calls against signet: the second call names an unknown
    method, the third passes a number where an outpoint string is due. *)
Lemma multiCall_envelopes_aligned_witness :
  exists rs,
    outcome_of (Blockstream.multiCall scripted signet_client sample_calls
                  (online sample_script)) = Ok rs
    /\ List.length rs = 6
    /\ nth_error rs 1 = Some {| result := VNull |}
    /\ nth_error rs 2 = Some {| result := VNull |}.
Proof.
  destruct (multiCall_envelopes_aligned scripted signet_client sample_calls
              (online sample_script)) as (rs & w' & evs & Hrun & Hlen & Hat).
  exists rs. rewrite Hrun. split; [reflexivity|]. split; [exact Hlen|].
  split.
  - pose proof (Hat 1 "nope" [] eq_refl) as H. cbv zeta in H.
    destruct H as (_ & _ & Hunknown & _). apply Hunknown. reflexivity.
  - pose proof (Hat 2 "ord_output" [VNum 1%float] eq_refl) as H. cbv zeta in H.
    destruct H as (_ & _ & _ & Hthrow).
    apply (Hthrow (TypeError
             "txidVout.split is not a function or its return value is not iterable")).
    vm_compute. reflexivity.
Defined.

(** Signet with the flag explicitly off. *)
Lemma signet_tries_secondary_first_witness :
  exists p l,
    Provider.new (scripted_args Signet (Some false)) offline = (Ok p, offline, l)
    /\ useBlockstreamFallback p = true
    /\ exists rest,
         events_of (Provider.multiCall scripted p sample_calls offline)
         = EBlockstream (BMultiCall sample_calls) :: rest.
Proof.
  destruct (signet_tries_secondary_first scripted (scripted_args Signet (Some false))
              offline eq_refl) as (p & l & Hnew & Hflag & Hroute).
  exists p, l. split; [exact Hnew|]. split; [exact Hflag|].
  exact (proj1 (Hroute sample_calls offline)).
Defined.

(** Regtest, Sandshrew unreachable. *)
Lemma primary_failure_propagates_unchanged_witness :
  outcome_of (Provider.multiCall scripted (scripted_provider Regtest false None)
                sample_calls offline)
  = Throw (External "ECONNREFUSED").
Proof.
  apply (primary_failure_propagates_unchanged scripted
           (scripted_provider Regtest false None) sample_calls offline
           (External "ECONNREFUSED")); reflexivity.
Defined.

Lemma secondary_broadcast_receipt_witness :
  fee {| txId := "id:beef"; rawTx := "beef"; size := 100%float;
         weight := 400%float; fee := 0%float; satsPerVByte := "0" |} = 0%float
  /\ satsPerVByte {| txId := "id:beef"; rawTx := "beef"; size := 100%float;
                     weight := 400%float; fee := 0%float; satsPerVByte := "0" |} = "0".
Proof.
  apply (secondary_broadcast_receipt scripted
           (scripted_provider Signet true (Some signet_client))
           (hex_only "beef") (online [Replied (text_response "id:beef")])
           (online [])
           {| txId := "id:beef"; rawTx := "beef"; size := 100%float;
              weight := 400%float; fee := 0%float; satsPerVByte := "0" |}
           [EBlockstream (BPushTx "beef");
            EFetch {| req_url := "https://mempool.space/signet/api/tx";
                      req_method := POST;
                      req_headers := [("Content-Type", "text/plain")];
                      req_body := Some "beef" |}]
           "beef").
  - vm_compute. reflexivity.
  - simpl. left. reflexivity.
Defined.


(** Neither argument, then the hex argument alone. *)
Lemma pushPsbt_invalid_input_iff_witness :
  (exists e,
     Provider.pushPsbt scripted (scripted_provider Mainnet false None)
       {| psbtHex := None; psbtBase64 := None |} offline = (Throw e, offline, [])
     /\ invalid_input e = true)
  /\ Provider.check_args (hex_only "beef") offline = (Ok tt, offline, []).
Proof.
  split.
  - apply (proj1 (pushPsbt_invalid_input_iff scripted
                    (scripted_provider Mainnet false None)
                    {| psbtHex := None; psbtBase64 := None |} offline)).
    reflexivity.
  - apply (proj2 (pushPsbt_invalid_input_iff scripted
                    (scripted_provider Mainnet false None)
                    (hex_only "beef") offline)).
    simpl. discriminate.
Defined.

(** Regtest with the flag on: the Blockstream constructor raises. *)
Lemma constructor_survives_secondary_failure_witness :
  exists p l,
    Provider.new (scripted_args Regtest (Some true)) offline = (Ok p, offline, l)
    /\ blockstreamEsplora p = None
    /\ outcome_of (Provider.multiCall scripted p sample_calls (online []))
       = outcome_of (Provider.sandshrew_multiCall scripted p sample_calls (online [])).
Proof.
  destruct (constructor_survives_secondary_failure scripted
              (scripted_args Regtest (Some true)) offline
              (JsError "Unsupported network type: regtest") eq_refl)
    as (p & l & Hnew & Hnone & Hroute).
  exists p, l. split; [exact Hnew|]. split; [exact Hnone|].
  exact (proj1 (Hroute sample_calls (online []))).
Defined.

Lemma no_service_without_secondary_witness :
  Provider.pushPsbt scripted (scripted_provider Regtest true None)
    (hex_only "beef") (online [])
  = (Throw (JsError "No available service to broadcast transaction"), online [], []).
Proof.
  apply (proj2 (no_service_without_secondary scripted
                  (scripted_provider Regtest true None) (hex_only "beef") (online [])
                  eq_refl eq_refl)
           {| tx_getId := "id:beef"; tx_toHex := "beef";
              tx_virtualSize := 100%float; tx_weight := 400%float |}).
  vm_compute. reflexivity.
Defined.

(** * Further properties of the two classes *)

(** ** Runs of the monad *)

Lemma bind_run {W A B} (m : M W A) (k : A -> M W B) w :
  bind m k w =
  match m w with
  | (Ok a, w1, l1) =>
      (outcome_of (k a w1), world_of (k a w1), (l1 ++ events_of (k a w1))%list)
  | (Throw e, w1, l1) => (Throw e, w1, l1)
  end.
Proof.
  unfold bind. destruct (m w) as [[[a|e] w1] l1]; [|reflexivity].
  now destruct (k a w1) as [[r w2] l2].
Qed.

(** ** The methods of the Blockstream client *)

Section BlockstreamMore.
Context {W Psbt : Type} (env : Collaborators W Psbt).
Variable c : BlockstreamEsploraClient.




(** One turn of the loop, with the events it emits. *)
Lemma multiCall_step_run results method params w :
  Blockstream.multiCall_step env c results (method, params) w =
  (Ok (results ++ [envelope_of
         (outcome_of (Blockstream.multiCall_switch env c method params w))])%list,
   world_of (Blockstream.multiCall_switch env c method params w),
   (events_of (Blockstream.multiCall_switch env c method params w)
    ++ match outcome_of (Blockstream.multiCall_switch env c method params w) with
       | Ok _ => []
       | Throw e =>
           [EConsole LogError ("Error in multiCall method " ++ method ++ ":") (Some e)]
       end)%list).
Proof.
  unfold Blockstream.multiCall_step, try_catch, bind.
  now destruct (Blockstream.multiCall_switch env c method params w)
    as [[[v|e] w1] l1].
Qed.


(** The accumulator only prefixes the envelopes of the loop. *)
Lemma multiCall_loop_prefix calls : forall results w,
  exists rs w' l,
    Blockstream.multiCall_loop env c calls [] w = (Ok rs, w', l)
    /\ Blockstream.multiCall_loop env c calls results w
       = (Ok (results ++ rs)%list, w', l).
Proof.
  induction calls as [|[method params] rest IH]; intros results w;
    cbn [Blockstream.multiCall_loop].
  - exists [], w, []. now rewrite app_nil_r.
  - rewrite !bind_run, !multiCall_step_run.
    set (sw := Blockstream.multiCall_switch env c method params w).
    destruct (IH ([] ++ [envelope_of (outcome_of sw)])%list (world_of sw))
      as (rs1 & w' & l & H0 & H1).
    destruct (IH (results ++ [envelope_of (outcome_of sw)])%list (world_of sw))
      as (rs2 & w2 & l2 & H0' & H2).
    rewrite H0 in H0'. inversion H0'; subst rs2 w2 l2.
    eexists (envelope_of (outcome_of sw) :: rs1), w', _.
    rewrite H1, H2. unfold outcome_of, world_of, events_of.
    cbn [fst snd]. split; [reflexivity|].
    now rewrite <- app_assoc.
Qed.

(** A call that is not a network method is answered the same way in
    every world, which it leaves as it is. *)
Lemma multiCall_switch_offline method params :
  network_method method = false ->
  exists o l,
    filter is_fetch l = []
    /\ forall w, Blockstream.multiCall_switch env c method params w = (o, w, l).
Proof.
  unfold network_method, Blockstream.multiCall_switch. intros H.
  apply orb_false_iff in H. destruct H as [H H3].
  apply orb_false_iff in H. destruct H as [H1 H2].
  rewrite H1, H2, H3.
  destruct (method =? "ord_output").
  - unfold bind, lift_outcome.
    destruct (js_split (nth 0 params VUndefined) ":");
      eexists; eexists; (split; [|intros w; reflexivity]); reflexivity.
  - destruct (method =? "alkanes_protorunesbyoutpoint");
      eexists; eexists; (split; [|intros w; reflexivity]); reflexivity.
Qed.

Lemma multiCall_loop_offline calls :
  Forall (fun call => network_method (fst call) = false) calls ->
  forall results, exists rs l,
    List.length rs = List.length calls
    /\ filter is_fetch l = []
    /\ forall w, Blockstream.multiCall_loop env c calls results w
                 = (Ok (results ++ rs)%list, w, l).
Proof.
  induction 1 as [|[method params] rest Hoff _ IH]; intros results;
    cbn [Blockstream.multiCall_loop].
  - exists [], []. split; [reflexivity|]. split; [reflexivity|].
    intros w. now rewrite app_nil_r.
  - destruct (multiCall_switch_offline method params Hoff) as (o & l1 & Hq1 & Hsw).
    destruct (IH (results ++ [envelope_of o])%list)
      as (rs & l & Hlen & Hq & Hloop).
    exists (envelope_of o :: rs).
    exists ((l1 ++ match o with
                   | Ok _ => []
                   | Throw e =>
                       [EConsole LogError
                          ("Error in multiCall method " ++ method ++ ":") (Some e)]
                   end) ++ l)%list.
    split; [simpl; now rewrite Hlen|]. split.
    + rewrite !filter_app, Hq1, Hq. now destruct o.
    + intros w. rewrite bind_run, multiCall_step_run, Hsw.
      unfold outcome_of, world_of, events_of. cbn [fst snd]. rewrite Hloop.
      cbn [fst snd]. now rewrite <- app_assoc.
Qed.
End BlockstreamMore.

(** X1.  Batches compose: the batch of [xs ++ ys] returns the envelopes of
    the batch [xs] followed by those of the batch [ys] run in the world the
    first batch leaves, and ends in the world the second one leaves. *)
Theorem multiCall_concat {W Psbt : Type} (env : Collaborators W Psbt)
    (c : BlockstreamEsploraClient) (xs ys : list Call) (w : W) :
  exists r1 w1 l1 r2 w2 l2,
    Blockstream.multiCall env c xs w = (Ok r1, w1, l1)
    /\ Blockstream.multiCall env c ys w1 = (Ok r2, w2, l2)
    /\ outcome_of (Blockstream.multiCall env c (xs ++ ys) w) = Ok (r1 ++ r2)%list
    /\ world_of (Blockstream.multiCall env c (xs ++ ys) w) = w2.
Proof.
  destruct (multiCall_returns env c xs w) as (r1 & w1 & l1 & Hxs & _ & Hxs_loop).
  destruct (multiCall_loop_prefix env c ys r1 w1) as (r2 & w2 & l2 & Hys & Hys_acc).
  exists r1, w1, (EBlockstream (BMultiCall xs) :: l1),
         r2, w2, (EBlockstream (BMultiCall ys) :: l2).
  split; [exact Hxs|].
  split; [rewrite multiCall_unfold, Hys; reflexivity|].
  rewrite multiCall_unfold, multiCall_loop_app, bind_run, Hxs_loop, Hys_acc.
  split; reflexivity.
Qed.


(** X3.  A batch without network methods (placeholders and unknown
    methods only) is answered on the spot: one envelope per call, the same
    envelopes and events in every world, the world left as it is and no
    request sent. *)
Theorem multiCall_offline_batch {W Psbt : Type} (env : Collaborators W Psbt)
    (c : BlockstreamEsploraClient) (calls : list Call) :
  Forall (fun call => network_method (fst call) = false) calls ->
  exists rs l,
    List.length rs = List.length calls
    /\ filter is_fetch l = []
    /\ forall w, Blockstream.multiCall env c calls w = (Ok rs, w, l).
Proof.
  intros Hoff.
  destruct (multiCall_loop_offline env c calls Hoff [])
    as (rs & l & Hlen & Hquiet & Hloop).
  exists rs, (EBlockstream (BMultiCall calls) :: l).
  split; [exact Hlen|]. split; [exact Hquiet|].
  intros w. rewrite multiCall_unfold, Hloop. reflexivity.
Qed.


(** X5.  [pushTx] sends one POST of the raw transaction as plain text to
    [/tx] under the base URL.  It returns the body of a reply with an ok
    status; for any other status it raises an error that carries the body
    of the reply. *)
Theorem pushTx_contract {W Psbt : Type} (env : Collaborators W Psbt)
    (c : BlockstreamEsploraClient) (txHex : string) (w : W) :
  let req := post_text_request (baseUrl c ++ "/tx") txHex in
  let run := Blockstream.pushTx env c txHex w in
  events_of run = [EBlockstream (BPushTx txHex); EFetch req]
  /\ world_of run = snd (fetch env req w)
  /\ (forall txid, outcome_of run = Ok txid <->
                   exists resp, fst (fetch env req w) = Replied resp
                                /\ resp_ok resp = true
                                /\ resp_text resp = Replied txid)
  /\ (forall resp body,
        fst (fetch env req w) = Replied resp ->
        resp_ok resp = false ->
        resp_text resp = Replied body ->
        outcome_of run = Throw (JsError ("Failed to broadcast transaction: " ++ body))).
Proof.
  cbv zeta.
  unfold Blockstream.pushTx, Blockstream.http_post_text, post_text_request,
    bind, emit, ask, throw, lift_outcome, outcome_of, world_of, events_of.
  destruct (fetch env _ w) as [[resp|d] w1]; cbn [fst snd outcome_of_reply app].
  - destruct (resp_ok resp) eqn:Hok; cbn [negb].
    + destruct (resp_text resp) as [body|d] eqn:Htext; cbn [fst snd outcome_of_reply app].
      * repeat split.
        -- intros H. exists resp. inversion H; subst. auto.
        -- intros (resp' & Heq & _ & Ht). inversion Heq; subst resp'.
           rewrite Htext in Ht. now inversion Ht.
        -- intros resp' body' Heq Hno. inversion Heq; subst resp'. congruence.
      * repeat split.
        -- intros H. discriminate H.
        -- intros (resp' & Heq & _ & Ht). inversion Heq; subst resp'. congruence.
        -- intros resp' body' Heq Hno. inversion Heq; subst resp'. congruence.
    + destruct (resp_text resp) as [body|d] eqn:Htext; cbn [fst snd outcome_of_reply app].
      * repeat split.
        -- intros H. discriminate H.
        -- intros (resp' & Heq & Hyes & _). inversion Heq; subst resp'. congruence.
        -- intros resp' body' Heq _ Ht. inversion Heq; subst resp'.
           rewrite Htext in Ht. now inversion Ht.
      * repeat split.
        -- intros H. discriminate H.
        -- intros (resp' & Heq & Hyes & _). inversion Heq; subst resp'. congruence.
        -- intros resp' body' Heq _ Ht. inversion Heq; subst resp'. congruence.
  - repeat split.
    + intros H. discriminate H.
    + intros (resp' & Heq & _). discriminate Heq.
    + intros resp' body' Heq. discriminate Heq.
Qed.

(** ** Routing, once more *)

Lemma multiCall_no_sandshrew {W Psbt : Type} (env : Collaborators W Psbt)
    (c : BlockstreamEsploraClient) (calls : list Call) :
  silent is_sandshrew (Blockstream.multiCall env c calls).
Proof.
  unfold Blockstream.multiCall. apply silent_bind; [silence|intros _].
  generalize (@nil Envelope).
  induction calls as [|[method params] rest IH]; intros results; simpl.
  - silence.
  - apply silent_bind; [|intro; apply IH].
    unfold Blockstream.multiCall_step, Blockstream.multiCall_switch,
      Blockstream.getAddressUtxos, Blockstream.getTxInfo,
      Blockstream.getBlockHeight, Blockstream.http_get.
    silence.
Qed.

(** X6.  The Provider's [multiCall] raises exactly when there is no
    Blockstream client and the Sandshrew batch raises, and then with that
    very exception: with a Blockstream client at hand it always returns. *)
Theorem multiCall_raises_iff {W Psbt : Type} (env : Collaborators W Psbt)
    (p : Provider) (calls : list Call) (w : W) (e : Exn) :
  outcome_of (Provider.multiCall env p calls w) = Throw e
  <-> blockstreamEsplora p = None
      /\ outcome_of (Provider.sandshrew_multiCall env p calls w) = Throw e.
Proof.
  rewrite sandshrew_multiCall_unfold.
  destruct (useBlockstreamFallback p) eqn:Hflag;
    destruct (blockstreamEsplora p) as [c|] eqn:Hc.
  - rewrite (route_secondary_first env p c calls w Hflag Hc).
    destruct (multiCall_returns env c calls w) as (rs & w' & l & Hrun & _).
    rewrite Hrun. split; [discriminate|intros [H _]; discriminate H].
  - rewrite route_primary_first by now right. rewrite Hc.
    destruct (Sandshrew_multiCall env (sandshrew p) calls w) as [[rs|d] w1];
      unfold outcome_of; simpl; split; auto; now intros [_ H].
  - rewrite route_primary_first by now left. rewrite Hc, Hflag.
    destruct (Sandshrew_multiCall env (sandshrew p) calls w) as [[rs|d] w1];
      cbv zeta.
    + unfold outcome_of; simpl. split; [discriminate|intros [H _]; discriminate H].
    + destruct (multiCall_returns env c calls w1) as (rs & w' & l & Hrun & _).
      rewrite Hrun. unfold outcome_of; simpl.
      split; [discriminate|intros [H _]; discriminate H].
  - rewrite route_primary_first by now right. rewrite Hc.
    destruct (Sandshrew_multiCall env (sandshrew p) calls w) as [[rs|d] w1];
      unfold outcome_of; simpl; split; auto; now intros [_ H].
Qed.

(** X7.  Whenever the Blockstream client took part in a routed batch, as
    first choice or as fallback, it was asked for the very calls of the
    batch and the Provider returns one envelope per call. *)
Theorem blockstream_answer_is_aligned {W Psbt : Type} (env : Collaborators W Psbt)
    (p : Provider) (calls sent : list Call) (w : W) :
  In (EBlockstream (BMultiCall sent)) (events_of (Provider.multiCall env p calls w)) ->
  sent = calls
  /\ exists rs, outcome_of (Provider.multiCall env p calls w) = Ok rs
                /\ List.length rs = List.length calls.
Proof.
  assert (Hbatch : forall c w0,
            In (EBlockstream (BMultiCall sent))
               (events_of (Blockstream.multiCall env c calls w0)) ->
            sent = calls
            /\ exists rs, outcome_of (Blockstream.multiCall env c calls w0) = Ok rs
                          /\ List.length rs = List.length calls).
  { intros c w0 Hin.
    destruct (multiCall_returns env c calls w0) as (rs & w' & l & Hrun & Hlen & Hloop).
    rewrite Hrun in Hin |- *. unfold events_of, outcome_of in *. simpl in Hin |- *.
    destruct Hin as [Hhead|Hin].
    - inversion Hhead; subst sent. split; [reflexivity|].
      exists rs. split; [reflexivity|exact Hlen].
    - exfalso.
      pose proof (multiCall_loop_no_batch env c calls [] w0) as Hquiet.
      rewrite Hloop in Hquiet. unfold events_of in Hquiet. simpl in Hquiet.
      assert (Hf : In (EBlockstream (BMultiCall sent)) (filter is_secondary_batch l))
        by (apply filter_In; split; [exact Hin|reflexivity]).
      rewrite Hquiet in Hf. destruct Hf. }
  destruct (useBlockstreamFallback p) eqn:Hflag;
    destruct (blockstreamEsplora p) as [c|] eqn:Hc.
  - rewrite (route_secondary_first env p c calls w Hflag Hc). apply Hbatch.
  - rewrite route_primary_first by now right. rewrite Hc.
    destruct (Sandshrew_multiCall env (sandshrew p) calls w) as [[rs|d] w1];
      unfold events_of; simpl; intros H;
      repeat (destruct H as [H|H]; [discriminate H|]); destruct H.
  - rewrite route_primary_first by now left. rewrite Hc, Hflag.
    destruct (Sandshrew_multiCall env (sandshrew p) calls w) as [[rs|d] w1];
      cbv zeta.
    + unfold events_of; simpl; intros H;
        repeat (destruct H as [H|H]; [discriminate H|]); destruct H.
    + unfold events_of at 1. unfold outcome_of at 1. cbn [fst snd app].
      intros H. repeat (destruct H as [H|H]; [discriminate H|]).
      now apply Hbatch.
  - rewrite route_primary_first by now right. rewrite Hc.
    destruct (Sandshrew_multiCall env (sandshrew p) calls w) as [[rs|d] w1];
      unfold events_of; simpl; intros H;
      repeat (destruct H as [H|H]; [discriminate H|]); destruct H.
Qed.

(** X8.  With the fallback flag set and a Blockstream client at hand, the
    routed batch is the Blockstream client's batch and Sandshrew is never
    contacted: the branch that would fall through to Sandshrew is never
    taken. *)
Theorem secondary_first_never_reaches_sandshrew {W Psbt : Type}
    (env : Collaborators W Psbt) (p : Provider) (c : BlockstreamEsploraClient)
    (calls : list Call) (w : W) :
  useBlockstreamFallback p = true ->
  blockstreamEsplora p = Some c ->
  Provider.multiCall env p calls w = Blockstream.multiCall env c calls w
  /\ filter is_sandshrew (events_of (Provider.multiCall env p calls w)) = [].
Proof.
  intros Hflag Hc. rewrite (route_secondary_first env p c calls w Hflag Hc).
  split; [reflexivity|]. apply multiCall_no_sandshrew.
Qed.

(** X9.  When Sandshrew is asked first and answers, its envelopes are
    returned as they are, whatever their number, and nothing is sent to
    Blockstream. *)
Theorem sandshrew_answer_returned_verbatim {W Psbt : Type}
    (env : Collaborators W Psbt) (p : Provider) (calls : list Call)
    (w w1 : W) (rs : list Envelope) :
  useBlockstreamFallback p = false \/ blockstreamEsplora p = None ->
  Sandshrew_multiCall env (sandshrew p) calls w = (Replied rs, w1) ->
  Provider.multiCall env p calls w = (Ok rs, w1, [ESandshrew (SMultiCall calls)]).
Proof.
  intros Hcfg Hreply. rewrite (route_primary_first env p calls w Hcfg).
  now rewrite Hreply.
Qed.

(** X10.  With the flag off and a Blockstream client at hand, a failure of
    Sandshrew is logged and the batch is run again on Blockstream in the
    world Sandshrew left; the outcome is that second run's. *)
Theorem sandshrew_failure_falls_back {W Psbt : Type}
    (env : Collaborators W Psbt) (p : Provider) (c : BlockstreamEsploraClient)
    (calls : list Call) (w w1 : W) (d : string) :
  useBlockstreamFallback p = false ->
  blockstreamEsplora p = Some c ->
  Sandshrew_multiCall env (sandshrew p) calls w = (Failed d, w1) ->
  outcome_of (Provider.multiCall env p calls w)
  = outcome_of (Blockstream.multiCall env c calls w1)
  /\ world_of (Provider.multiCall env p calls w)
     = world_of (Blockstream.multiCall env c calls w1)
  /\ events_of (Provider.multiCall env p calls w)
     = ([ESandshrew (SMultiCall calls);
         EConsole LogWarn "Sandshrew multiCall failed:" (Some (External d));
         EConsole LogInfo "Falling back to Blockstream Esplora" None]
        ++ events_of (Blockstream.multiCall env c calls w1))%list.
Proof.
  intros Hflag Hc Hreply. rewrite route_primary_first by now left.
  rewrite Hreply, Hc, Hflag. auto.
Qed.

(** ** The constructor, once more *)

Lemma append_empty_r (s : string) : s ++ "" = s.
Proof. induction s as [|ch s IH]; simpl; [reflexivity|now rewrite IH]. Qed.

Lemma Provider_new_url {W : Type} (args : ProviderConstructorArgs) (w : W) :
  exists p l,
    Provider.new args w = (Ok p, w, l)
    /\ url p = String.concat "/"
                 (filter string_truthy
                    [arg_url args; opt_default (arg_version args) "v1";
                     arg_projectId args])
    /\ rpc_url (sandshrew p) = url p /\ rpc_url (esplora p) = url p
    /\ rpc_url (ord p) = url p /\ rpc_url (alkanes p) = url p.
Proof.
  unfold Provider.new.
  destruct (opt_default (arg_fallbackToBlockstream args) false
            || NetworkType_eqb (arg_networkType args) Signet
            || existsb (NetworkType_eqb (arg_networkType args))
                 [Signet; Testnet; Mainnet]).
  - rewrite bind_run. unfold try_catch, bind, lift_outcome, console, emit, ret.
    destruct (Blockstream.new (arg_networkType args)) as [c|e];
      eexists; eexists; (split; [reflexivity|]); simpl; auto.
  - rewrite bind_ret_l. eexists; eexists; (split; [reflexivity|]); simpl; auto.
Qed.

(** X11.  The constructor never raises and leaves the world alone.  It
    warns exactly when it is asked for the fallback on regtest.  The
    fallback is in force exactly when it was asked for or the network type
    is signet.  The network, network type and API provider are stored as
    given. *)
Theorem constructor_contract {W : Type} (args : ProviderConstructorArgs) (w : W) :
  exists p,
    Provider.new args w
    = (Ok p, w,
       if NetworkType_eqb (arg_networkType args) Regtest
          && opt_default (arg_fallbackToBlockstream args) false
       then [EConsole LogWarn "Failed to initialize Blockstream Esplora client:"
               (Some (JsError "Unsupported network type: regtest"))]
       else [])
    /\ (useBlockstreamFallback p = true <->
        arg_fallbackToBlockstream args = Some true \/ arg_networkType args = Signet)
    /\ network p = arg_network args
    /\ networkType p = arg_networkType args
    /\ api p = arg_apiProvider args.
Proof.
  unfold Provider.new.
  destruct args as [u pid net nt ver apiv fb]. cbn [arg_url arg_projectId
    arg_network arg_networkType arg_version arg_apiProvider
    arg_fallbackToBlockstream].
  destruct nt, fb as [[|]|]; cbn [opt_default NetworkType_eqb orb andb existsb];
    unfold bind, try_catch, lift_outcome, ret, console, emit; simpl;
    (eexists; split; [reflexivity|]); simpl;
    (split; [split; [intros H; try discriminate H; auto
                    |intros [H|H]; try discriminate H; reflexivity]
            |auto]).
Qed.

(** X12.  The master URL is the URL followed by the version (v1 unless
    given) and the project id, each behind a slash, and an empty version or
    project id leaves no slash behind.  The four RPC clients are built on
    that same URL. *)
Theorem master_url_skips_empty_pieces {W : Type} (args : ProviderConstructorArgs)
    (w w' : W) (p : Provider) (l : list Event) :
  arg_url args <> "" ->
  Provider.new args w = (Ok p, w', l) ->
  url p = arg_url args
          ++ segment (opt_default (arg_version args) "v1")
          ++ segment (arg_projectId args)
  /\ rpc_url (sandshrew p) = url p /\ rpc_url (esplora p) = url p
  /\ rpc_url (ord p) = url p /\ rpc_url (alkanes p) = url p.
Proof.
  intros Hurl Hnew.
  destruct (Provider_new_url args w) as (p0 & l0 & Hnew0 & Hu & Hhandles).
  rewrite Hnew in Hnew0. inversion Hnew0; subst p0 l0.
  split; [|exact Hhandles]. rewrite Hu.
  destruct (arg_url args) as [|ch u]; [now elim Hurl|].
  unfold segment.
  destruct (opt_default (arg_version args) "v1") as [|cv v];
    destruct (arg_projectId args) as [|cp b]; simpl;
    rewrite ?append_empty_r; reflexivity.
Qed.

(** ** Broadcast, once more *)

(** X13.  The transaction id and the raw transaction of every receipt are
    those of the locally extracted transaction, on either path: no backend
    answer enters them. *)
Theorem receipt_identifies_local_transaction {W Psbt : Type}
    (env : Collaborators W Psbt) (p : Provider) (a : PushPsbtArgs) (w w' : W)
    (r : Receipt) (l : list Event) :
  Provider.pushPsbt env p a w = (Ok r, w', l) ->
  exists tx,
    Provider.prepare env p a w = (Ok tx, w, [])
    /\ txId r = tx_getId tx
    /\ rawTx r = tx_toHex tx.
Proof.
  destruct (prepare_spec env p a w) as (o & Hprep & _).
  rewrite (pushPsbt_unfold env p a w o Hprep).
  destruct o as [tx|e]; [|discriminate].
  intros Hrun. exists tx. split; [exact Hprep|].
  destruct (useBlockstreamFallback p).
  - pose proof (push_blockstream_spec env p tx w) as Hspec.
    destruct (blockstreamEsplora p) as [c|].
    + destruct Hspec as [_ Hr]. rewrite (Hr r); [split; reflexivity|].
      now rewrite Hrun.
    + rewrite Hspec in Hrun. discriminate Hrun.
  - destruct (push_sandshrew_receipt env p tx w r) as (entry & w1 & _ & Hr).
    { now rewrite Hrun. }
    rewrite Hr. split; reflexivity.
Qed.

(** X14.  On the Sandshrew path a transaction the mempool test does not
    allow is never sent: the broadcast stops right after the test and
    raises the reject reason the backend gave (an empty message when it
    gave none). *)
Theorem rejected_transaction_is_not_sent {W Psbt : Type}
    (env : Collaborators W Psbt) (p : Provider) (a : PushPsbtArgs) (w w1 : W)
    (tx : Transaction) (res : MemPoolAccept) (rest : list MemPoolAccept) :
  useBlockstreamFallback p = false ->
  outcome_of (Provider.prepare env p a w) = Ok tx ->
  testMemPoolAccept env (sandshrew p) [tx_toHex tx] w = (Replied (res :: rest), w1) ->
  allowed res = false ->
  Provider.pushPsbt env p a w
  = (Throw (JsError (opt_default (reject_reason res) "")), w1,
     [ESandshrew (STestMemPoolAccept [tx_toHex tx])]).
Proof.
  intros Hflag Htx Htest Hno.
  destruct (prepare_spec env p a w) as (o & Hprep & _).
  rewrite Hprep in Htx. unfold outcome_of in Htx. simpl in Htx. subst o.
  rewrite (pushPsbt_unfold env p a w _ Hprep), Hflag.
  unfold Provider.push_sandshrew, Provider.sandshrew_op, bind, emit, ask, throw.
  rewrite Htest. simpl. now rewrite Hno.
Qed.

(** X15.  On the Blockstream path a failed push is logged and raised again
    as it is; Sandshrew is not tried in its place. *)
Theorem blockstream_push_failure_propagates {W Psbt : Type}
    (env : Collaborators W Psbt) (p : Provider) (c : BlockstreamEsploraClient)
    (a : PushPsbtArgs) (w : W) (tx : Transaction) (e : Exn) :
  useBlockstreamFallback p = true ->
  blockstreamEsplora p = Some c ->
  outcome_of (Provider.prepare env p a w) = Ok tx ->
  outcome_of (Blockstream.pushTx env c (tx_toHex tx) w) = Throw e ->
  Provider.pushPsbt env p a w
  = (Throw e, world_of (Blockstream.pushTx env c (tx_toHex tx) w),
     (events_of (Blockstream.pushTx env c (tx_toHex tx) w)
      ++ [EConsole LogError "Blockstream Esplora push failed:" (Some e)])%list)
  /\ filter is_sandshrew (events_of (Provider.pushPsbt env p a w)) = [].
Proof.
  intros Hflag Hc Htx Hpush.
  destruct (prepare_spec env p a w) as (o & Hprep & _).
  rewrite Hprep in Htx. unfold outcome_of in Htx. simpl in Htx. subst o.
  rewrite (pushPsbt_unfold env p a w _ Hprep), Hflag.
  split.
  - unfold Provider.push_blockstream. rewrite Hc.
    unfold try_catch, bind, outcome_of, world_of, events_of in *.
    destruct (Blockstream.pushTx env c (tx_toHex tx) w) as [[[v|e0] w1] l1];
      simpl in *; [discriminate Hpush|].
    now inversion Hpush.
  - apply push_blockstream_no_sandshrew.
Qed.

(** X16.  With exactly one payload given, a payload the PSBT library cannot
    decode makes [pushPsbt] fail with the library's own failure, and a
    decoded PSBT from which no transaction can be extracted makes it fail
    with a fixed message that drops the library's detail; in both cases
    no backend is contacted. *)
Theorem undecodable_payload_fails_locally {W Psbt : Type}
    (env : Collaborators W Psbt) (p : Provider) (a : PushPsbtArgs) (w : W) :
  opt_truthy (psbtHex a) <> opt_truthy (psbtBase64 a) ->
  let decoded :=
    if opt_truthy (psbtHex a)
    then Psbt_fromHex env (opt_default (psbtHex a) "") (network p)
    else Psbt_fromBase64 env (opt_default (psbtBase64 a) "") (network p) in
  (forall d, decoded = Failed d ->
             Provider.pushPsbt env p a w = (Throw (External d), w, []))
  /\ (forall ps d,
        decoded = Replied ps ->
        Psbt_extractTransaction env ps = Failed d ->
        Provider.pushPsbt env p a w
        = (Throw (JsError "Transaction could not be extracted do to invalid Psbt."),
           w, [])).
Proof.
  intros Hone. cbv zeta.
  unfold Provider.pushPsbt, Provider.prepare, Provider.check_args,
    Provider.decode_psbt, Provider.extract.
  destruct (opt_truthy (psbtHex a)), (opt_truthy (psbtBase64 a));
    try (now elim Hone); cbn [negb andb];
    unfold bind, try_catch, lift_outcome, throw, ret; simpl; split.
  - intros d Hd. now rewrite Hd.
  - intros ps d Hps Hd. rewrite Hps. simpl. now rewrite Hd.
  - intros d Hd. now rewrite Hd.
  - intros ps d Hps Hd. rewrite Hps. simpl. now rewrite Hd.
Qed.

(** The Sandshrew branch, step by step. *)
Lemma push_sandshrew_run {W Psbt : Type} (env : Collaborators W Psbt)
    (p : Provider) (tx : Transaction) (w : W) :
  Provider.push_sandshrew env p tx w =
  let raw := tx_toHex tx in
  let id := tx_getId tx in
  let steps := [ESandshrew (STestMemPoolAccept [raw]);
                ESandshrew (SSendRawTransaction raw);
                ESandshrew (SWaitForTransaction id);
                ESandshrew (SGetMemPoolEntry id)] in
  match testMemPoolAccept env (sandshrew p) [raw] w with
  | (Failed d, w1) => (Throw (External d), w1, firstn 1 steps)
  | (Replied [], w1) =>
      (Throw (TypeError "Cannot read properties of undefined (reading 'allowed')"),
       w1, firstn 1 steps)
  | (Replied (res :: _), w1) =>
      if allowed res then
        match sendRawTransaction env (sandshrew p) raw w1 with
        | (Failed d, w2) => (Throw (External d), w2, firstn 2 steps)
        | (Replied _, w2) =>
            match waitForTransaction env id (sandshrew p) w2 with
            | (Failed d, w3) => (Throw (External d), w3, firstn 3 steps)
            | (Replied _, w3) =>
                match getMemPoolEntry env (sandshrew p) id w3 with
                | (Failed d, w4) => (Throw (External d), w4, steps)
                | (Replied entry, w4) =>
                    (Ok {| txId := id; rawTx := raw;
                           size := vsize entry; weight := entry_weight entry;
                           fee := mul (fees_base entry) ten_pow_8;
                           satsPerVByte :=
                             Number_toFixed (Number_toString env)
                               (div (mul (fees_base entry) ten_pow_8)
                                    (div (entry_weight entry) 4%float)) 2 |},
                     w4, steps)
                end
            end
        end
      else (Throw (JsError (opt_default (reject_reason res) "")), w1, firstn 1 steps)
  end.
Proof.
  cbv zeta.
  unfold Provider.push_sandshrew, Provider.sandshrew_op, bind, emit, ask, throw, ret.
  simpl.
  destruct (testMemPoolAccept env (sandshrew p) [tx_toHex tx] w) as [[res|d] w1];
    simpl; [|reflexivity].
  destruct res as [|res rest]; simpl; [reflexivity|].
  destruct (allowed res); simpl; [|reflexivity].
  destruct (sendRawTransaction env (sandshrew p) (tx_toHex tx) w1) as [[sent|d] w2];
    simpl; [|reflexivity].
  destruct (waitForTransaction env (tx_getId tx) (sandshrew p) w2) as [[u|d] w3];
    simpl; [|reflexivity].
  destruct (getMemPoolEntry env (sandshrew p) (tx_getId tx) w3) as [[entry|d] w4];
    reflexivity.
Qed.

(** X17.  On the Sandshrew path the broadcast goes through the mempool
    test, the sending, the wait and the reading of the mempool entry, in
    that order, each in the world the step before left, and stops at the
    first step that fails: that step's failure is raised as it is, in the
    world it left, with the events up to that step and no later one.  A
    receipt is returned only when all four steps answered, and then all
    four events are there. *)
Theorem sandshrew_broadcast_order {W Psbt : Type} (env : Collaborators W Psbt)
    (p : Provider) (a : PushPsbtArgs) (w : W) (tx : Transaction) :
  useBlockstreamFallback p = false ->
  outcome_of (Provider.prepare env p a w) = Ok tx ->
  let raw := tx_toHex tx in
  let id := tx_getId tx in
  let steps := [ESandshrew (STestMemPoolAccept [raw]);
                ESandshrew (SSendRawTransaction raw);
                ESandshrew (SWaitForTransaction id);
                ESandshrew (SGetMemPoolEntry id)] in
  let run := Provider.pushPsbt env p a w in
  (exists k,
     1 <= k <= 4
     /\ events_of run = firstn k steps
     /\ (forall r, outcome_of run = Ok r -> k = 4))
  /\ (forall d w1,
        testMemPoolAccept env (sandshrew p) [raw] w = (Failed d, w1) ->
        run = (Throw (External d), w1, firstn 1 steps))
  /\ (forall res rest w1,
        testMemPoolAccept env (sandshrew p) [raw] w = (Replied (res :: rest), w1) ->
        allowed res = true ->
        (forall d w2,
           sendRawTransaction env (sandshrew p) raw w1 = (Failed d, w2) ->
           run = (Throw (External d), w2, firstn 2 steps))
        /\ (forall sent w2,
              sendRawTransaction env (sandshrew p) raw w1 = (Replied sent, w2) ->
              (forall d w3,
                 waitForTransaction env id (sandshrew p) w2 = (Failed d, w3) ->
                 run = (Throw (External d), w3, firstn 3 steps))
              /\ (forall u w3,
                    waitForTransaction env id (sandshrew p) w2 = (Replied u, w3) ->
                    (forall d w4,
                       getMemPoolEntry env (sandshrew p) id w3 = (Failed d, w4) ->
                       run = (Throw (External d), w4, steps))
                    /\ (forall entry w4,
                          getMemPoolEntry env (sandshrew p) id w3
                          = (Replied entry, w4) ->
                          exists r, run = (Ok r, w4, steps)))))
  /\ (forall r,
        outcome_of run = Ok r ->
        exists res rest w1 sent w2 u w3 entry,
          testMemPoolAccept env (sandshrew p) [raw] w = (Replied (res :: rest), w1)
          /\ allowed res = true
          /\ sendRawTransaction env (sandshrew p) raw w1 = (Replied sent, w2)
          /\ waitForTransaction env id (sandshrew p) w2 = (Replied u, w3)
          /\ getMemPoolEntry env (sandshrew p) id w3 = (Replied entry, world_of run)).
Proof.
  intros Hflag Htx. cbv zeta.
  destruct (prepare_spec env p a w) as (o & Hprep & _).
  rewrite Hprep in Htx. unfold outcome_of in Htx. simpl in Htx. subst o.
  rewrite (pushPsbt_unfold env p a w _ Hprep), Hflag, push_sandshrew_run.
  cbv zeta. split; [|split; [|split]].
  - unfold outcome_of, events_of.
    destruct (testMemPoolAccept env (sandshrew p) [tx_toHex tx] w) as [[res|d] w1];
      [|exists 1; repeat split; try lia; discriminate].
    destruct res as [|res rest];
      [exists 1; repeat split; try lia; discriminate|].
    destruct (allowed res);
      [|exists 1; repeat split; try lia; discriminate].
    destruct (sendRawTransaction env (sandshrew p) (tx_toHex tx) w1) as [[sent|d] w2];
      [|exists 2; repeat split; try lia; discriminate].
    destruct (waitForTransaction env (tx_getId tx) (sandshrew p) w2) as [[u|d] w3];
      [|exists 3; repeat split; try lia; discriminate].
    destruct (getMemPoolEntry env (sandshrew p) (tx_getId tx) w3) as [[entry|d] w4];
      exists 4; repeat split; try lia; discriminate.
  - intros d w1 Htest. now rewrite Htest.
  - intros res rest w1 Htest Hallowed. rewrite Htest, Hallowed. split.
    + intros d w2 Hsend. now rewrite Hsend.
    + intros sent w2 Hsend. rewrite Hsend. split.
      * intros d w3 Hwait. now rewrite Hwait.
      * intros u w3 Hwait. rewrite Hwait. split.
        -- intros d w4 Hentry. now rewrite Hentry.
        -- intros entry w4 Hentry. rewrite Hentry. eexists. reflexivity.
  - unfold outcome_of, world_of.
    destruct (testMemPoolAccept env (sandshrew p) [tx_toHex tx] w) as [[res|d] w1];
      [|intros r H; discriminate H].
    destruct res as [|res rest]; [intros r H; discriminate H|].
    destruct (allowed res) eqn:Hallowed; [|intros r H; discriminate H].
    destruct (sendRawTransaction env (sandshrew p) (tx_toHex tx) w1)
      as [[sent|d] w2] eqn:Hsend; [|intros r H; discriminate H].
    destruct (waitForTransaction env (tx_getId tx) (sandshrew p) w2)
      as [[u|d] w3] eqn:Hwait; [|intros r H; discriminate H].
    destruct (getMemPoolEntry env (sandshrew p) (tx_getId tx) w3)
      as [[entry|d] w4] eqn:Hentry; [|intros r H; discriminate H].
    intros r _. exists res, rest, w1, sent, w2, u, w3, entry. simpl. auto.
Qed.

(** X18.  A broadcast talks to one backend only: with the fallback in
    force nothing goes to Sandshrew, otherwise nothing goes to Blockstream,
    whatever fails on the way. *)
Theorem broadcast_uses_one_backend {W Psbt : Type} (env : Collaborators W Psbt)
    (p : Provider) (a : PushPsbtArgs) (w : W) :
  if useBlockstreamFallback p
  then filter is_sandshrew (events_of (Provider.pushPsbt env p a w)) = []
  else filter is_blockstream (events_of (Provider.pushPsbt env p a w)) = [].
Proof.
  destruct (prepare_spec env p a w) as (o & Hprep & _).
  rewrite (pushPsbt_unfold env p a w o Hprep).
  destruct o as [tx|e].
  - destruct (useBlockstreamFallback p).
    + apply push_blockstream_no_sandshrew.
    + apply push_sandshrew_no_blockstream.
  - now destruct (useBlockstreamFallback p).
Qed.

(** X19.  On the Blockstream path the receipt is built from the local
    transaction alone: once the push is answered with an ok status, the
    receipt carries the local id, hex, virtual size and weight, whatever
    text the explorer sent back. *)
Theorem blockstream_receipt_ignores_reply {W Psbt : Type}
    (env : Collaborators W Psbt) (p : Provider) (c : BlockstreamEsploraClient)
    (a : PushPsbtArgs) (w : W) (tx : Transaction) (answer : string) :
  useBlockstreamFallback p = true ->
  blockstreamEsplora p = Some c ->
  outcome_of (Provider.prepare env p a w) = Ok tx ->
  outcome_of (Blockstream.pushTx env c (tx_toHex tx) w) = Ok answer ->
  Provider.pushPsbt env p a w
  = (Ok {| txId := tx_getId tx; rawTx := tx_toHex tx;
           size := tx_virtualSize tx; weight := tx_weight tx;
           fee := 0%float; satsPerVByte := "0" |},
     world_of (Blockstream.pushTx env c (tx_toHex tx) w),
     events_of (Blockstream.pushTx env c (tx_toHex tx) w)).
Proof.
  intros Hflag Hc Htx Hpush.
  destruct (prepare_spec env p a w) as (o & Hprep & _).
  rewrite Hprep in Htx. unfold outcome_of in Htx. simpl in Htx. subst o.
  rewrite (pushPsbt_unfold env p a w _ Hprep), Hflag.
  unfold Provider.push_blockstream. rewrite Hc.
  unfold try_catch, bind, ret, outcome_of, world_of, events_of in *.
  destruct (Blockstream.pushTx env c (tx_toHex tx) w) as [[[v|e0] w1] l1];
    simpl in *; [|discriminate Hpush].
  now rewrite app_nil_r.
Qed.

(** X20.  On the Sandshrew path an empty answer to the mempool test makes
    the broadcast fail with a type error right after the test: nothing is
    sent. *)
Theorem empty_mempool_answer_is_a_type_error {W Psbt : Type}
    (env : Collaborators W Psbt) (p : Provider) (a : PushPsbtArgs) (w w1 : W)
    (tx : Transaction) :
  useBlockstreamFallback p = false ->
  outcome_of (Provider.prepare env p a w) = Ok tx ->
  testMemPoolAccept env (sandshrew p) [tx_toHex tx] w = (Replied [], w1) ->
  Provider.pushPsbt env p a w
  = (Throw (TypeError "Cannot read properties of undefined (reading 'allowed')"),
     w1, [ESandshrew (STestMemPoolAccept [tx_toHex tx])]).
Proof.
  intros Hflag Htx Htest.
  destruct (prepare_spec env p a w) as (o & Hprep & _).
  rewrite Hprep in Htx. unfold outcome_of in Htx. simpl in Htx. subst o.
  rewrite (pushPsbt_unfold env p a w _ Hprep), Hflag.
  unfold Provider.push_sandshrew, Provider.sandshrew_op, bind, emit, ask, throw.
  now rewrite Htest.
Qed.

(** ** The further properties at work on the scripted environment *)

Lemma multiCall_offline_batch_witness :
  exists rs l,
    List.length rs = 3
    /\ filter is_fetch l = []
    /\ forall w, Blockstream.multiCall scripted signet_client offline_calls w
                 = (Ok rs, w, l).
Proof.
  apply (multiCall_offline_batch scripted signet_client offline_calls).
  repeat constructor.
Defined.

(** Mainnet with Sandshrew down: the fallback answers. *)
Lemma blockstream_answer_is_aligned_witness :
  exists rs,
    outcome_of (Provider.multiCall scripted
                  (scripted_provider Mainnet false
                     (Some {| baseUrl := "https://blockstream.info/api" |}))
                  sample_calls offline) = Ok rs
    /\ List.length rs = 6.
Proof.
  apply (blockstream_answer_is_aligned scripted
           (scripted_provider Mainnet false
              (Some {| baseUrl := "https://blockstream.info/api" |}))
           sample_calls sample_calls offline).
  vm_compute. right. right. right. left. reflexivity.
Defined.

Lemma secondary_first_never_reaches_sandshrew_witness :
  filter is_sandshrew
    (events_of (Provider.multiCall scripted
                  (scripted_provider Signet true (Some signet_client))
                  sample_calls offline)) = [].
Proof.
  apply (secondary_first_never_reaches_sandshrew scripted
           (scripted_provider Signet true (Some signet_client)) signet_client
           sample_calls offline); reflexivity.
Defined.

Lemma sandshrew_answer_returned_verbatim_witness :
  Provider.multiCall scripted (scripted_provider Regtest false None)
    offline_calls (online [])
  = (Ok [{| result := VStr "sandshrew" |}; {| result := VStr "sandshrew" |};
         {| result := VStr "sandshrew" |}],
     online [], [ESandshrew (SMultiCall offline_calls)]).
Proof.
  apply (sandshrew_answer_returned_verbatim scripted
           (scripted_provider Regtest false None) offline_calls
           (online []) (online [])).
  - left. reflexivity.
  - reflexivity.
Defined.

Lemma sandshrew_failure_falls_back_witness :
  outcome_of (Provider.multiCall scripted
                (scripted_provider Mainnet false
                   (Some {| baseUrl := "https://blockstream.info/api" |}))
                offline_calls offline)
  = outcome_of (Blockstream.multiCall scripted
                  {| baseUrl := "https://blockstream.info/api" |}
                  offline_calls offline).
Proof.
  apply (sandshrew_failure_falls_back scripted
           (scripted_provider Mainnet false
              (Some {| baseUrl := "https://blockstream.info/api" |}))
           {| baseUrl := "https://blockstream.info/api" |}
           offline_calls offline offline "ECONNREFUSED"); reflexivity.
Defined.

Lemma master_url_skips_empty_pieces_witness :
  url (scripted_provider Mainnet false
         (Some {| baseUrl := "https://blockstream.info/api" |}))
  = "https://mainnet.sandshrew.io/v1/lasereyes".
Proof.
  apply (master_url_skips_empty_pieces (scripted_args Mainnet None)
           offline offline
           (scripted_provider Mainnet false
              (Some {| baseUrl := "https://blockstream.info/api" |})) []).
  - simpl. discriminate.
  - reflexivity.
Defined.

Lemma receipt_identifies_local_transaction_witness :
  exists tx,
    Provider.prepare scripted (scripted_provider Mainnet false None)
      (hex_only "beef") (online []) = (Ok tx, online [], [])
    /\ "id:beef" = tx_getId tx
    /\ "beef" = tx_toHex tx.
Proof.
  apply (receipt_identifies_local_transaction scripted
           (scripted_provider Mainnet false None) (hex_only "beef")
           (online []) (online [])
           {| txId := "id:beef"; rawTx := "beef"; size := 100%float;
              weight := 400%float;
              fee := mul 0x1.4f8b588e368f1p-17%float ten_pow_8;
              satsPerVByte := "10.00" |}
           [ESandshrew (STestMemPoolAccept ["beef"]);
            ESandshrew (SSendRawTransaction "beef");
            ESandshrew (SWaitForTransaction "id:beef");
            ESandshrew (SGetMemPoolEntry "id:beef")]).
  vm_compute. reflexivity.
Defined.

Lemma rejected_transaction_is_not_sent_witness :
  Provider.pushPsbt scripted (scripted_provider Mainnet false None)
    (hex_only "dust") (online [])
  = (Throw (JsError "dust"), online [], [ESandshrew (STestMemPoolAccept ["dust"])]).
Proof.
  apply (rejected_transaction_is_not_sent scripted
           (scripted_provider Mainnet false None) (hex_only "dust")
           (online []) (online [])
           {| tx_getId := "id:dust"; tx_toHex := "dust";
              tx_virtualSize := 100%float; tx_weight := 400%float |}
           {| allowed := false; reject_reason := Some "dust" |} []);
    reflexivity.
Defined.

(** Signet with the explorer unreachable. *)
Lemma blockstream_push_failure_propagates_witness :
  outcome_of (Provider.pushPsbt scripted
                (scripted_provider Signet true (Some signet_client))
                (hex_only "beef") (online []))
  = Throw (External "ENOTFOUND").
Proof.
  rewrite (proj1 (blockstream_push_failure_propagates scripted
                    (scripted_provider Signet true (Some signet_client))
                    signet_client (hex_only "beef") (online [])
                    {| tx_getId := "id:beef"; tx_toHex := "beef";
                       tx_virtualSize := 100%float; tx_weight := 400%float |}
                    (External "ENOTFOUND") eq_refl eq_refl eq_refl eq_refl)).
  reflexivity.
Defined.

Lemma undecodable_payload_fails_locally_witness :
  Provider.pushPsbt scripted (scripted_provider Mainnet false None)
    (hex_only "zz") offline
  = (Throw (External "Format Error: Invalid Magic Number"), offline, [])
  /\ Provider.pushPsbt scripted (scripted_provider Mainnet false None)
       (hex_only "unsigned") offline
     = (Throw (JsError "Transaction could not be extracted do to invalid Psbt."),
        offline, []).
Proof.
  split.
  - apply (proj1 (undecodable_payload_fails_locally scripted
                    (scripted_provider Mainnet false None) (hex_only "zz") offline
                    ltac:(simpl; discriminate))).
    reflexivity.
  - apply (proj2 (undecodable_payload_fails_locally scripted
                    (scripted_provider Mainnet false None) (hex_only "unsigned")
                    offline ltac:(simpl; discriminate))
             "unsigned" "Not finalized"); reflexivity.
Defined.

(** Sandshrew down: the broadcast stops at the mempool test. *)
Lemma sandshrew_broadcast_order_witness :
  Provider.pushPsbt scripted (scripted_provider Mainnet false None)
    (hex_only "beef") offline
  = (Throw (External "ECONNREFUSED"), offline,
     [ESandshrew (STestMemPoolAccept ["beef"])]).
Proof.
  apply (proj1 (proj2
           (sandshrew_broadcast_order scripted (scripted_provider Mainnet false None)
              (hex_only "beef") offline
              {| tx_getId := "id:beef"; tx_toHex := "beef";
                 tx_virtualSize := 100%float; tx_weight := 400%float |}
              eq_refl eq_refl))).
  reflexivity.
Defined.

(** Signet: the explorer answers with some text of its own. *)
Lemma blockstream_receipt_ignores_reply_witness :
  Provider.pushPsbt scripted (scripted_provider Signet true (Some signet_client))
    (hex_only "beef") (online [Replied (text_response "anything")])
  = (Ok {| txId := "id:beef"; rawTx := "beef"; size := 100%float;
           weight := 400%float; fee := 0%float; satsPerVByte := "0" |},
     online [],
     [EBlockstream (BPushTx "beef");
      EFetch (post_text_request "https://mempool.space/signet/api/tx" "beef")]).
Proof.
  apply (blockstream_receipt_ignores_reply scripted
           (scripted_provider Signet true (Some signet_client)) signet_client
           (hex_only "beef") (online [Replied (text_response "anything")])
           {| tx_getId := "id:beef"; tx_toHex := "beef";
              tx_virtualSize := 100%float; tx_weight := 400%float |}
           "anything"); reflexivity.
Defined.

Lemma empty_mempool_answer_is_a_type_error_witness :
  Provider.pushPsbt scripted_empty_test (scripted_provider Mainnet false None)
    (hex_only "beef") (online [])
  = (Throw (TypeError "Cannot read properties of undefined (reading 'allowed')"),
     online [], [ESandshrew (STestMemPoolAccept ["beef"])]).
Proof.
  apply (empty_mempool_answer_is_a_type_error scripted_empty_test
           (scripted_provider Mainnet false None) (hex_only "beef")
           (online []) (online [])
           {| tx_getId := "id:beef"; tx_toHex := "beef";
              tx_virtualSize := 100%float; tx_weight := 400%float |});
    reflexivity.
Defined.
